(** * Binder Print: hole geometry, content areas and duplex outline sheets

    Shallow embedding of the geometry core of the Binder Print web
    application: the types of [src/types/index.ts], the binder registry
    and [getContentArea] of [src/services/binderSpecs.ts], the PDF
    generator with its 2-up mode ([generatePdf], [generate2UpPages],
    [drawContentPageAt], [drawOutlineAt]), the outline drawer
    ([drawOutline]) of [src/services/outlineGenerator.ts] and the scale
    helpers [calculateFitScale] and [calculateFillScale]; then the
    geometry of the page thumbnails and of the position editor with its
    handlers, and, in [Module PerPageSide], the second version of the
    services (a side per page: [generatePdf], [processFiles]) with the
    state and the handlers of [src/App.tsx].

    Conventions of the embedding:
    - a JavaScript [number] is modelled by an exact rational ([Q]): the
      arithmetic operators are the field operations of [Q], [===] on
      numbers is [Qeq_bool], [Math.min] and [Math.max] are [Qmin] and
      [Qmax].  Equations between numbers are stated with [==]; the rounding
      of IEEE doubles is not part of the model;
    - a PDF document is the list of its pages in [addPage] order, a page
      is the list of the draw calls made on it, in call order;
    - [undefined] is [None]; a call that throws is a [Throw] completion. *)

From Stdlib Require Import QArith Qminmax Qabs Lqa Lia Ascii.
From stdpp Require Import base option list strings pretty gmap.

Open Scope Q_scope.

(** ** Numbers *)

(** Closes goals of linear rational arithmetic in which divisions are by
    numeric literals (as in [x / 2] or [mm / 25.4]). *)
Ltac qlin :=
  unfold Qdiv in *;
  repeat match goal with
         | |- context [ / (?n # ?d) ] =>
             let v := eval vm_compute in (/ (n # d)) in
             change (/ (n # d)) with v
         | H : context [ / (?n # ?d) ] |- _ =>
             let v := eval vm_compute in (/ (n # d)) in
             change (/ (n # d)) with v in H
         end;
  lra.

(** The loop index [i] of [Array.from({length: n}, (_, i) => ...)] as a number. *)
Definition num (i : nat) : Q := inject_Z (Z.of_nat i).

(** [Array.from({ length: n }, (_, i) => f i)]. *)
Definition Array_from (n : nat) (f : Q -> Q) : list Q :=
  map (fun i => f (num i)) (seq 0 n).

(** ** Types ([src/types/index.ts]) *)

Inductive PaperSize := A4 | A5.

Record PaperDimensions := { width : Q; height : Q }.

Definition PAPER_SIZES (p : PaperSize) : PaperDimensions :=
  match p with
  | A4 => {| width := 210; height := 297 |}
  | A5 => {| width := 148; height := 210 |}
  end.

(** The closed union of catalog ids. *)
Inductive BinderType :=
| A5_20_Hole | A5_2_Hole | A5_6_Hole_Filofax | A5_6_Hole_Standard | A4_4_Hole.

(** The string literal each member of the union stands for. *)
Definition BinderType_key (t : BinderType) : string :=
  match t with
  | A5_20_Hole => "a5-20-hole"
  | A5_2_Hole => "a5-2-hole"
  | A5_6_Hole_Filofax => "a5-6-hole-filofax"
  | A5_6_Hole_Standard => "a5-6-hole-standard"
  | A4_4_Hole => "a4-4-hole"
  end.

Inductive PageSide := Left | Right.

Record BinderSpec := {
  spec_id : BinderType;
  spec_name : string;
  spec_paperSize : PaperSize;
  holeCount : nat;
  holeDiameter : Q;
  edgeDistance : Q;
  getHolePositions : Q -> list Q
}.

Inductive ContentType := Image | PdfPage.

Record Position := { pos_x : Q; pos_y : Q; scale : Q }.

Record ContentPage := {
  page_id : string;
  page_type : ContentType;
  dataUrl : string;
  originalWidth : Q;
  originalHeight : Q;
  page_position : Position
}.

Record GeneratePdfOptions := {
  opt_pages : list ContentPage;
  opt_binderType : BinderType;
  opt_paperSize : PaperSize;
  opt_pageSide : PageSide;
  opt_enablePadding : bool
}.

#[global] Instance PaperSize_eq_dec : EqDecision PaperSize.
Proof. solve_decision. Defined.

#[global] Instance PageSide_eq_dec : EqDecision PageSide.
Proof. solve_decision. Defined.

#[global] Instance BinderType_eq_dec : EqDecision BinderType.
Proof. solve_decision. Defined.

(** ** Binder registry ([src/services/binderSpecs.ts]) *)

Definition HOLE_DIAMETER : Q := 6.

Definition a5_20_hole : BinderSpec := {|
  spec_id := A5_20_Hole;
  spec_name := "A5 20-Hole (Japanese)";
  spec_paperSize := A5;
  holeCount := 20;
  holeDiameter := HOLE_DIAMETER;
  edgeDistance := 5.5;
  getHolePositions := fun pageHeight =>
    let pitch := 9.7 in
    let totalSpan := pitch * 19 in
    let startY := (pageHeight - totalSpan) / 2 in
    Array_from 20 (fun i => startY + i * pitch)
|}.

Definition a5_2_hole : BinderSpec := {|
  spec_id := A5_2_Hole;
  spec_name := "A5 2-Hole (ISO 838)";
  spec_paperSize := A5;
  holeCount := 2;
  holeDiameter := HOLE_DIAMETER;
  edgeDistance := 12;
  getHolePositions := fun pageHeight =>
    let spacing := 80 in
    let centerY := pageHeight / 2 in
    [centerY - spacing / 2; centerY + spacing / 2]
|}.

Definition a5_6_hole_filofax : BinderSpec := {|
  spec_id := A5_6_Hole_Filofax;
  spec_name := "A5 6-Hole (Filofax)";
  spec_paperSize := A5;
  holeCount := 6;
  holeDiameter := HOLE_DIAMETER;
  edgeDistance := 12;
  getHolePositions := fun pageHeight =>
    let pitch := 19 in
    let centralGap := 50.8 in
    let centerY := pageHeight / 2 in
    let topGroupCenter := centerY - centralGap / 2 - pitch in
    let bottomGroupCenter := centerY + centralGap / 2 + pitch in
    [ topGroupCenter - pitch;
      topGroupCenter;
      topGroupCenter + pitch;
      bottomGroupCenter - pitch;
      bottomGroupCenter;
      bottomGroupCenter + pitch ]
|}.

Definition a5_6_hole_standard : BinderSpec := {|
  spec_id := A5_6_Hole_Standard;
  spec_name := "A5 6-Hole (Standard)";
  spec_paperSize := A5;
  holeCount := 6;
  holeDiameter := HOLE_DIAMETER;
  edgeDistance := 12;
  getHolePositions := fun pageHeight =>
    let pitch := 19 in
    let centralGap := 70 in
    let centerY := pageHeight / 2 in
    let topGroupCenter := centerY - centralGap / 2 - pitch in
    let bottomGroupCenter := centerY + centralGap / 2 + pitch in
    [ topGroupCenter - pitch;
      topGroupCenter;
      topGroupCenter + pitch;
      bottomGroupCenter - pitch;
      bottomGroupCenter;
      bottomGroupCenter + pitch ]
|}.

Definition a4_4_hole : BinderSpec := {|
  spec_id := A4_4_Hole;
  spec_name := "A4 4-Hole (European)";
  spec_paperSize := A4;
  holeCount := 4;
  holeDiameter := HOLE_DIAMETER;
  edgeDistance := 11;
  getHolePositions := fun pageHeight =>
    let spacing := 80 in
    let totalSpan := spacing * 3 in
    let startY := (pageHeight - totalSpan) / 2 in
    Array_from 4 (fun i => startY + i * spacing)
|}.

(** The object literal [BINDER_SPECS], keyed by the id strings (its own
    properties; the members inherited from [Object.prototype] are left out). *)
Definition BINDER_SPECS_object : gmap string BinderSpec :=
  <["a5-20-hole" := a5_20_hole]>
  (<["a5-2-hole" := a5_2_hole]>
  (<["a5-6-hole-filofax" := a5_6_hole_filofax]>
  (<["a5-6-hole-standard" := a5_6_hole_standard]>
  (<["a4-4-hole" := a4_4_hole]> ∅)))).

(** [BINDER_SPECS[binderType]] at a key of type [BinderType]: the record
    type [Record<BinderType, BinderSpec>] has an entry for each member. *)
Definition BINDER_SPECS (t : BinderType) : BinderSpec :=
  match t with
  | A5_20_Hole => a5_20_hole
  | A5_2_Hole => a5_2_hole
  | A5_6_Hole_Filofax => a5_6_hole_filofax
  | A5_6_Hole_Standard => a5_6_hole_standard
  | A4_4_Hole => a4_4_hole
  end.

(** The five catalog standards. *)
Definition catalog : list BinderType :=
  [A5_20_Hole; A5_2_Hole; A5_6_Hole_Filofax; A5_6_Hole_Standard; A4_4_Hole].

(** How a call completes: it returns a value or throws an error, named by
    the error's [name]. *)
Inductive completion (A : Type) :=
| Normal (v : A)
| Throw (error : string).
Arguments Normal {A} v.
Arguments Throw {A} error.

Definition bind {A B} (c : completion A) (k : A -> completion B) : completion B :=
  match c with
  | Normal v => k v
  | Throw e => Throw e
  end.

Notation "'let*' x ':=' c 'in' k" := (bind c (fun x => k))
  (at level 10, x name, c at level 100, k at level 200).

(** [getBinderSpec] as it runs, the [BinderType] annotation erased: a
    property read, which yields [undefined] ([None]) at a key the object
    does not have. *)
Definition getBinderSpec (type : string) : completion (option BinderSpec) :=
  Normal (BINDER_SPECS_object !! type).

(** ** Geometry resolver ([getContentArea]) *)

Record ContentArea := {
  area_width : Q;
  area_height : Q;
  offsetX : Q;
  offsetY : Q
}.

(** The body of [getContentArea] once [spec = BINDER_SPECS[binderType]]
    is read.  It has no [throw] statement and no clamping: it ends in the
    [return] of the record. *)
Definition getContentAreaFor (spec : BinderSpec) (paperSize : PaperSize)
    (pageSide : PageSide) (enablePadding : bool) : completion ContentArea :=
  let paper := PAPER_SIZES paperSize in
  let binderPaper := PAPER_SIZES (spec_paperSize spec) in
  let padding := if enablePadding then 5 else 0 in
  let holeMargin := edgeDistance spec + holeDiameter spec / 2 + padding in
  let contentWidth := width binderPaper - holeMargin in
  let contentHeight := height binderPaper in
  let '(offsetX, offsetY) :=
    if bool_decide (paperSize = spec_paperSize spec) then
      (if bool_decide (pageSide = Left) then 0 else holeMargin, 0)
    else if bool_decide (paperSize = A4) && bool_decide (spec_paperSize spec = A5) then
      let offsetX := (width paper - width binderPaper) / 2 in
      let offsetY := (height paper - height binderPaper) / 2 in
      (if bool_decide (pageSide = Right) then offsetX + holeMargin else offsetX, offsetY)
    else
      (if bool_decide (pageSide = Right) then holeMargin else 0, 0) in
  Normal {| area_width := contentWidth;
            area_height := contentHeight;
            offsetX := offsetX;
            offsetY := offsetY |}.

Definition getContentArea (binderType : BinderType) (paperSize : PaperSize)
    (pageSide : PageSide) (enablePadding : bool) : completion ContentArea :=
  getContentAreaFor (BINDER_SPECS binderType) paperSize pageSide enablePadding.

(** The hole margin of the specification, as [getContentArea] computes it. *)
Definition holeMarginOf (spec : BinderSpec) (enablePadding : bool) : Q :=
  edgeDistance spec + holeDiameter spec / 2 + (if enablePadding then 5 else 0).

(** ** Content scaling ([src/services/contentProcessor.ts]) *)

Definition calculateFitScale (contentWidth contentHeight targetWidth targetHeight : Q) : Q :=
  let scaleX := targetWidth / contentWidth in
  let scaleY := targetHeight / contentHeight in
  Qmin scaleX scaleY.

Definition calculateFillScale (contentWidth contentHeight targetWidth targetHeight : Q) : Q :=
  let scaleX := targetWidth / contentWidth in
  let scaleY := targetHeight / contentHeight in
  Qmax scaleX scaleY.

(** ** The PDF document being written *)

Record Color := rgb { red : Q; green : Q; blue : Q }.

(** An embedded image: which decoder was used on which bytes.  The bytes
    are those of the page's data URL. *)
Inductive PDFImage :=
| embedPng (imageBytes : string)
| embedJpg (imageBytes : string).

Inductive DrawCall :=
| drawImage (image : PDFImage) (x y w h : Q)
| drawRectangle (x y w h : Q) (borderColor : Color) (borderWidth : Q)
| drawCircle (x y size : Q) (borderColor : Color) (borderWidth : Q)
| drawLine (start_x start_y end_x end_y : Q) (color : Color) (thickness : Q).

Record PDFPage := {
  page_size : Q * Q;
  calls : list DrawCall
}.

(** The page [pdfDoc.addPage([w, h])] returns. *)
Definition addPage (w h : Q) : PDFPage :=
  {| page_size := (w, h); calls := [] |}.

(** One more draw call on a page. *)
Definition draw (page : PDFPage) (c : DrawCall) : PDFPage :=
  {| page_size := page_size page; calls := calls page ++ [c] |}.

(** [s.includes(sub)]. *)
Definition includes (s sub : string) : bool :=
  match String.index 0 sub s with
  | Some _ => true
  | None => false
  end.

(** The circles, trim rectangles and images of a page, in drawing order. *)
Definition circlesOf (page : PDFPage) : list (Q * Q * Q) :=
  omap (fun c => match c with
                 | drawCircle x y size _ _ => Some (x, y, size)
                 | _ => None
                 end) (calls page).

Definition rectanglesOf (page : PDFPage) : list (Q * Q * Q * Q) :=
  omap (fun c => match c with
                 | drawRectangle x y w h _ _ => Some (x, y, w, h)
                 | _ => None
                 end) (calls page).

Definition imagesOf (page : PDFPage) : list (PDFImage * (Q * Q * Q * Q)) :=
  omap (fun c => match c with
                 | drawImage image x y w h => Some (image, (x, y, w, h))
                 | _ => None
                 end) (calls page).

(** ** Unit conversions *)

Definition mmToPoints (mm : Q) : Q := (mm / 25.4) * 72.

Definition pxToMm (px dpi : Q) : Q := (px / dpi) * 25.4.

Definition LINE_WIDTH : Q := 1.

(** ** Outline of a full sheet ([src/services/outlineGenerator.ts]) *)

Inductive OutlinePosition := Top | Bottom | Single.

(** The loop [for (const posY of holePositions)] of both outline drawers. *)
Definition drawHoles (page : PDFPage) (holeX areaY holeRadius : Q)
    (holePositions : list Q) : PDFPage :=
  fold_left (fun page posY =>
               let holeY := areaY + mmToPoints posY in
               draw page (drawCircle holeX holeY holeRadius (rgb 0 0 0) LINE_WIDTH))
            holePositions page.

(** The loop [for (const corner of corners)] of both outline drawers. *)
Definition drawCropMarks (page : PDFPage) (areaX areaY areaWidth areaHeight : Q) : PDFPage :=
  let cropMarkLength := mmToPoints 5 in
  let cropMarkOffset := mmToPoints 3 in
  let corners :=
    [ (areaX, areaY);
      (areaX + areaWidth, areaY);
      (areaX, areaY + areaHeight);
      (areaX + areaWidth, areaY + areaHeight) ] in
  fold_left (fun page (corner : Q * Q) =>
               let isLeft := Qeq_bool (fst corner) areaX in
               let isBottom := Qeq_bool (snd corner) areaY in
               let hStart := if isLeft then fst corner - cropMarkOffset - cropMarkLength
                             else fst corner + cropMarkOffset in
               let hEnd := if isLeft then fst corner - cropMarkOffset
                           else fst corner + cropMarkOffset + cropMarkLength in
               let page := draw page (drawLine hStart (snd corner) hEnd (snd corner)
                                               (rgb 0 0 0) LINE_WIDTH) in
               let vStart := if isBottom then snd corner - cropMarkOffset - cropMarkLength
                             else snd corner + cropMarkOffset in
               let vEnd := if isBottom then snd corner - cropMarkOffset
                           else snd corner + cropMarkOffset + cropMarkLength in
               draw page (drawLine (fst corner) vStart (fst corner) vEnd
                                   (rgb 0 0 0) LINE_WIDTH))
            corners page.

(** Where [drawOutline] puts the trim area: [(areaX, areaY)]. *)
Definition outlineOrigin (binderType : BinderType) (paperSize : PaperSize)
    (is2Up : bool) (position : OutlinePosition) : Q * Q :=
  let spec := BINDER_SPECS binderType in
  let paper := PAPER_SIZES paperSize in
  let binderPaper := PAPER_SIZES (spec_paperSize spec) in
  let pageWidth := mmToPoints (width paper) in
  let pageHeight := mmToPoints (height paper) in
  let targetWidth := mmToPoints (width binderPaper) in
  let targetHeight := mmToPoints (height binderPaper) in
  if is2Up && bool_decide (paperSize = A4) && bool_decide (spec_paperSize spec = A5) then
    match position with
    | Top => (0, (pageWidth - targetHeight) / 2)
    | _ => (targetWidth, (pageWidth - targetHeight) / 2)
    end
  else
    let areaX := (pageWidth - targetWidth) / 2 in
    let areaY := (pageHeight - targetHeight) / 2 in
    let areaX := pageWidth - areaX - targetWidth in
    (areaX, areaY).

Definition drawOutline (page : PDFPage) (binderType : BinderType) (paperSize : PaperSize)
    (pageSide : PageSide) (is2Up : bool) (position : OutlinePosition) : PDFPage :=
  let spec := BINDER_SPECS binderType in
  let binderPaper := PAPER_SIZES (spec_paperSize spec) in
  let targetWidth := mmToPoints (width binderPaper) in
  let targetHeight := mmToPoints (height binderPaper) in
  let '(areaX, areaY) := outlineOrigin binderType paperSize is2Up position in
  let page := draw page (drawRectangle areaX areaY targetWidth targetHeight
                                       (rgb 0 0 0) LINE_WIDTH) in
  let holePositions := getHolePositions spec (height binderPaper) in
  let holeDiameter := mmToPoints (holeDiameter spec) in
  let holeRadius := holeDiameter / 2 in
  let edgeDistance := mmToPoints (edgeDistance spec) in
  let holeX := if bool_decide (pageSide = Left)
               then areaX + targetWidth - edgeDistance
               else areaX + edgeDistance in
  let page := drawHoles page holeX areaY holeRadius holePositions in
  drawCropMarks page areaX areaY targetWidth targetHeight.

(** ** PDF generation ([src/services/pdfGenerator.ts]) *)

(** [pdfDoc.embedPng] or [pdfDoc.embedJpg] on the bytes fetched from the
    page's data URL. *)
Definition embedImage (contentPage : ContentPage) : PDFImage :=
  let imageBytes := dataUrl contentPage in
  if includes (dataUrl contentPage) "image/png"
  then embedPng imageBytes
  else embedJpg imageBytes.

(** Draw content on a full page. *)
Definition drawContentPage (pdfPage : PDFPage) (contentPage : ContentPage)
    (binderType : BinderType) (paperSize : PaperSize) (pageSide : PageSide)
    (enablePadding : bool) : completion PDFPage :=
  let paper := PAPER_SIZES paperSize in
  let pageHeightPt := mmToPoints (height paper) in
  let* contentArea := getContentArea binderType paperSize pageSide enablePadding in
  let image := embedImage contentPage in
  let position := page_position contentPage in
  let imgWidthMm := pxToMm (originalWidth contentPage) 150 in
  let imgHeightMm := pxToMm (originalHeight contentPage) 150 in
  let scaledWidth := imgWidthMm * scale position in
  let scaledHeight := imgHeightMm * scale position in
  let imgX := mmToPoints (offsetX contentArea + pos_x position) in
  let imgY := mmToPoints (offsetY contentArea + pos_y position) in
  Normal (draw pdfPage
            (drawImage image
               imgX
               (pageHeightPt - imgY - mmToPoints scaledHeight)
               (mmToPoints scaledWidth)
               (mmToPoints scaledHeight))).

(** Draw content at a specific position (for 2-up mode). *)
Definition drawContentPageAt (pdfPage : PDFPage) (contentPage : ContentPage)
    (binderType : BinderType) (pageSide : PageSide) (enablePadding : bool)
    (areaX areaY _areaWidth areaHeight : Q) : PDFPage :=
  let spec := BINDER_SPECS binderType in
  let padding := if enablePadding then 5 else 0 in
  let holeMargin := mmToPoints (edgeDistance spec + holeDiameter spec / 2 + padding) in
  let image := embedImage contentPage in
  let position := page_position contentPage in
  let imgWidthMm := pxToMm (originalWidth contentPage) 150 in
  let imgHeightMm := pxToMm (originalHeight contentPage) 150 in
  let scaledWidthPt := mmToPoints (imgWidthMm * scale position) in
  let scaledHeightPt := mmToPoints (imgHeightMm * scale position) in
  let imgX := areaX + mmToPoints (pos_x position) in
  let imgX := if bool_decide (pageSide = Right) then imgX + holeMargin else imgX in
  draw pdfPage
    (drawImage image
       imgX
       (areaY + areaHeight - scaledHeightPt - mmToPoints (pos_y position))
       scaledWidthPt
       scaledHeightPt).

(** Draw outline at a specific position (for 2-up mode). *)
Definition drawOutlineAt (pdfPage : PDFPage) (binderType : BinderType)
    (pageSide : PageSide) (areaX areaY areaWidth areaHeight : Q) : PDFPage :=
  let spec := BINDER_SPECS binderType in
  let binderPaper := PAPER_SIZES (spec_paperSize spec) in
  let holeDiameter := mmToPoints (holeDiameter spec) in
  let holeRadius := holeDiameter / 2 in
  let edgeDistance := mmToPoints (edgeDistance spec) in
  let pdfPage := draw pdfPage (drawRectangle areaX areaY areaWidth areaHeight
                                             (rgb 0 0 0) LINE_WIDTH) in
  let holePositions := getHolePositions spec (height binderPaper) in
  let holeX := if bool_decide (pageSide = Left)
               then areaX + edgeDistance
               else areaX + areaWidth - edgeDistance in
  let pdfPage := drawHoles pdfPage holeX areaY holeRadius holePositions in
  drawCropMarks pdfPage areaX areaY areaWidth areaHeight.

(** One pass of the loop of [generate2UpPages] over [firstPage = pages[i]]
    and [secondPage = pages[i + 1]] ([None] when there is no such page):
    the content sheet, then the outline sheet. *)
Definition draw2UpSheets (firstPage : ContentPage) (secondPage : option ContentPage)
    (binderType : BinderType) (pageSide : PageSide) (enablePadding : bool)
    : PDFPage * PDFPage :=
  let paper := PAPER_SIZES A4 in
  let a5Paper := PAPER_SIZES A5 in
  let pageWidthPt := mmToPoints (width paper) in
  let pageHeightPt := mmToPoints (height paper) in
  let a5WidthPt := mmToPoints (width a5Paper) in
  let a5HeightPt := mmToPoints (height a5Paper) in
  let contentPdfPage := addPage pageWidthPt pageHeightPt in
  let contentPdfPage :=
    drawContentPageAt contentPdfPage firstPage binderType pageSide enablePadding
      0 (pageHeightPt - a5HeightPt) a5WidthPt a5HeightPt in
  let contentPdfPage :=
    match secondPage with
    | Some secondPage =>
        drawContentPageAt contentPdfPage secondPage binderType pageSide enablePadding
          0 0 a5WidthPt a5HeightPt
    | None => contentPdfPage
    end in
  let outlinePdfPage := addPage pageWidthPt pageHeightPt in
  let outlinePdfPage :=
    drawOutlineAt outlinePdfPage binderType pageSide
      (pageWidthPt - a5WidthPt) 0 a5WidthPt a5HeightPt in
  let outlinePdfPage :=
    match secondPage with
    | Some _ =>
        drawOutlineAt outlinePdfPage binderType pageSide
          (pageWidthPt - a5WidthPt) (pageHeightPt - a5HeightPt) a5WidthPt a5HeightPt
    | None => outlinePdfPage
    end in
  (contentPdfPage, outlinePdfPage).

(** The loop [for (let i = 0; i < pages.length; i += 2)], entered at index
    [i].  [pages !! i] is [None] exactly when [i < pages.length] fails.
    [fuel] bounds the number of passes; [length pages] is always enough
    (lemma [generate2UpPages_from_spec]). *)
Fixpoint generate2UpPages_from (fuel i : nat) (pdfDoc : list PDFPage)
    (pages : list ContentPage) (binderType : BinderType) (pageSide : PageSide)
    (enablePadding : bool) : list PDFPage :=
  match fuel with
  | O => pdfDoc
  | S fuel =>
      match pages !! i with
      | None => pdfDoc
      | Some firstPage =>
          let secondPage := pages !! (i + 1)%nat in
          let '(contentPdfPage, outlinePdfPage) :=
            draw2UpSheets firstPage secondPage binderType pageSide enablePadding in
          generate2UpPages_from fuel (i + 2) (pdfDoc ++ [contentPdfPage; outlinePdfPage])
            pages binderType pageSide enablePadding
      end
  end.

(** Generate 2-up pages (two A5 content pages per A4 sheet). *)
Definition generate2UpPages (pdfDoc : list PDFPage) (pages : list ContentPage)
    (binderType : BinderType) (pageSide : PageSide) (enablePadding : bool)
    : list PDFPage :=
  generate2UpPages_from (length pages) 0 pdfDoc pages binderType pageSide enablePadding.

(** The test [use2Up] of [generatePdf]. *)
Definition use2Up (options : GeneratePdfOptions) : bool :=
  let spec := BINDER_SPECS (opt_binderType options) in
  bool_decide (opt_paperSize options = A4)
  && bool_decide (spec_paperSize spec = A5)
  && bool_decide (1 < length (opt_pages options))%nat.

(** Generate a duplex-ready PDF with alternating content and outline
    pages; the result is the document handed to [pdfDoc.save()]. *)
Definition generatePdf (options : GeneratePdfOptions) : completion (list PDFPage) :=
  let pages := opt_pages options in
  let binderType := opt_binderType options in
  let paperSize := opt_paperSize options in
  let pageSide := opt_pageSide options in
  let enablePadding := opt_enablePadding options in
  let pdfDoc : list PDFPage := [] in
  let paper := PAPER_SIZES paperSize in
  let pageWidthPt := mmToPoints (width paper) in
  let pageHeightPt := mmToPoints (height paper) in
  if use2Up options then
    Normal (generate2UpPages pdfDoc pages binderType pageSide enablePadding)
  else
    fold_left
      (fun (doc : completion (list PDFPage)) contentPage =>
         let* pdfDoc := doc in
         let* contentPdfPage :=
           drawContentPage (addPage pageWidthPt pageHeightPt) contentPage
             binderType paperSize pageSide enablePadding in
         let outlinePdfPage :=
           drawOutline (addPage pageWidthPt pageHeightPt) binderType paperSize
             pageSide false Single in
         Normal (pdfDoc ++ [contentPdfPage; outlinePdfPage]))
      pages (Normal pdfDoc).

(** A standard record outside the catalog: the ISO 838 entry with an
    edge distance of 150mm, wider than an A5 sheet. *)
Definition wide_margin_spec : BinderSpec := {|
  spec_id := A5_2_Hole;
  spec_name := "A5 2-Hole (ISO 838)";
  spec_paperSize := A5;
  holeCount := 2;
  holeDiameter := HOLE_DIAMETER;
  edgeDistance := 150;
  getHolePositions := getHolePositions a5_2_hole
|}.

(** ** Sample inputs *)

Definition sample_page (n : string) : ContentPage := {|
  page_id := n;
  page_type := Image;
  dataUrl := "data:image/png;base64,iVBORw0KGgo=";
  originalWidth := 874;
  originalHeight := 1240;
  page_position := {| pos_x := 0; pos_y := 0; scale := 1 |}
|}.

(** Three pages for the 20-hole A5 standard printed on A4: 2-up. *)
Definition three_pages : GeneratePdfOptions := {|
  opt_pages := [sample_page "page-1"; sample_page "page-2"; sample_page "page-3"];
  opt_binderType := A5_20_Hole;
  opt_paperSize := A4;
  opt_pageSide := Left;
  opt_enablePadding := false
|}.

(** ** Predicates used in the statements *)

(** Each element is at most its successor. *)
Fixpoint nondecreasing (l : list Q) : Prop :=
  match l with
  | a :: (b :: _) as tl => a <= b /\ nondecreasing tl
  | _ => True
  end.

(** The i-th element from the start plus the i-th from the end is [h],
    up to [tol]. *)
Definition symmetric_about_half (tol h : Q) (l : list Q) : Prop :=
  forall (i : nat) (a b : Q),
    l !! i = Some a ->
    l !! (length l - 1 - i)%nat = Some b ->
    Qabs (a + b - h) <= tol.

(** The A4 sheet and the A5 sub-areas of 2-up mode, in points. *)
Definition sheetWidth : Q := mmToPoints (width (PAPER_SIZES A4)).
Definition sheetHeight : Q := mmToPoints (height (PAPER_SIZES A4)).
Definition subAreaWidth : Q := mmToPoints (width (PAPER_SIZES A5)).
Definition subAreaHeight : Q := mmToPoints (height (PAPER_SIZES A5)).

(** The sub-area in the top half of the sheet starts at [topAreaY] (PDF
    ordinates grow upwards), the one in the bottom half at [bottomAreaY]. *)
Definition topAreaY : Q := sheetHeight - subAreaHeight.
Definition bottomAreaY : Q := 0.

(** [img] is the image of [contentPage], placed in the sub-area whose
    lower left corner is [(areaX, areaY)]: shifted right by the page's x
    offset (and by the hole margin for a right page), and hanging from the
    top edge of the sub-area, lowered by the page's y offset. *)
Definition placed_in_subarea (binderType : BinderType) (pageSide : PageSide)
    (enablePadding : bool) (areaX : Q) (img : PDFImage * (Q * Q * Q * Q))
    (slot : ContentPage * Q) : Prop :=
  let '(image, (x, y, w, h)) := img in
  let '(contentPage, areaY) := slot in
  image = embedImage contentPage
  /\ x == areaX + mmToPoints (pos_x (page_position contentPage))
          + match pageSide with
            | Left => 0
            | Right => mmToPoints (holeMarginOf (BINDER_SPECS binderType) enablePadding)
            end
  /\ y + h == areaY + subAreaHeight - mmToPoints (pos_y (page_position contentPage)).

(** The slots of a 2-up content sheet, top first. *)
Definition slotsOf (firstPage : ContentPage) (secondPage : option ContentPage)
    : list (ContentPage * Q) :=
  (firstPage, topAreaY)
  :: match secondPage with
     | Some secondPage => [(secondPage, bottomAreaY)]
     | None => []
     end.

(** The line segments of a page, in drawing order: start, then end. *)
Definition linesOf (page : PDFPage) : list (Q * Q * Q * Q) :=
  omap (fun c => match c with
                 | drawLine start_x start_y end_x end_y _ _ =>
                     Some (start_x, start_y, end_x, end_y)
                 | _ => None
                 end) (calls page).

(** A horizontal crop mark at the corner [(cx, cy)]: a segment of 5mm on
    the line [y = cy], which leaves a gap of 3mm to the corner and lies to
    its left ([leftwards]) or to its right. *)
Definition horizontal_mark (cx cy : Q) (leftwards : bool) (l : Q * Q * Q * Q) : Prop :=
  let '(sx, sy, ex, ey) := l in
  sy == cy /\ ey == cy
  /\ if leftwards
     then ex == cx - mmToPoints 3 /\ sx == ex - mmToPoints 5
     else sx == cx + mmToPoints 3 /\ ex == sx + mmToPoints 5.

(** A vertical crop mark at the corner [(cx, cy)]: a segment of 5mm on
    the line [x = cx], which leaves a gap of 3mm to the corner and lies
    below it ([downwards]) or above it. *)
Definition vertical_mark (cx cy : Q) (downwards : bool) (l : Q * Q * Q * Q) : Prop :=
  let '(sx, sy, ex, ey) := l in
  sx == cx /\ ex == cx
  /\ if downwards
     then ey == cy - mmToPoints 3 /\ sy == ey - mmToPoints 5
     else sy == cy + mmToPoints 3 /\ ey == sy + mmToPoints 5.

(** The eight crop marks of the rectangle [(x, y, w, h)], two per corner,
    each pointing away from the rectangle. *)
Definition crop_marks_of (x y w h : Q) (ls : list (Q * Q * Q * Q)) : Prop :=
  exists h1 v1 h2 v2 h3 v3 h4 v4,
    ls = [h1; v1; h2; v2; h3; v3; h4; v4]
    /\ horizontal_mark x y true h1 /\ vertical_mark x y true v1
    /\ horizontal_mark (x + w) y false h2 /\ vertical_mark (x + w) y true v2
    /\ horizontal_mark x (y + h) true h3 /\ vertical_mark x (y + h) false v3
    /\ horizontal_mark (x + w) (y + h) false h4 /\ vertical_mark (x + w) (y + h) false v4.

(** The circle [(cx, cy, r)] lies within the rectangle [(x, y, w, h)]. *)
Definition circle_within (rect : Q * Q * Q * Q) (c : Q * Q * Q) : Prop :=
  let '(x, y, w, h) := rect in
  let '(cx, cy, r) := c in
  x <= cx - r /\ cx + r <= x + w /\ y <= cy - r /\ cy + r <= y + h.

(** The placed image [a] is [b] moved by [(dx, dy)]: same embedded image,
    same size. *)
Definition translated_image (dx dy : Q) (a b : PDFImage * (Q * Q * Q * Q)) : Prop :=
  let '(ia, (xa, ya, wa, ha)) := a in
  let '(ib, (xb, yb, wb, hb)) := b in
  ia = ib /\ xa == xb + dx /\ ya == yb + dy /\ wa == wb /\ ha == hb.

(** The paper is at least as large as the standard's native sheet: every
    combination but an A4 standard printed on A5 paper. *)
Definition paper_holds_native (t : BinderType) (paperSize : PaperSize) : Prop :=
  ~ (paperSize = A5 /\ spec_paperSize (BINDER_SPECS t) = A4).

(** The content area lies on the sheet of the given paper size. *)
Definition area_on_sheet (paperSize : PaperSize) (area : ContentArea) : Prop :=
  0 <= offsetX area
  /\ offsetX area + area_width area <= width (PAPER_SIZES paperSize)
  /\ 0 <= offsetY area
  /\ offsetY area + area_height area <= height (PAPER_SIZES paperSize).

(** [img] is the image of [contentPage] as a full sheet shows it: its top
    left corner is [(offsetX + x, offsetY + y)] millimetres from the top
    left corner of the sheet, [x] and [y] being the page's offsets, and its
    size is the pixel size at 150 dpi times the page's scale. *)
Definition placed_on_sheet (paperSize : PaperSize) (area : ContentArea)
    (contentPage : ContentPage) (img : PDFImage * (Q * Q * Q * Q)) : Prop :=
  let '(image, (x, y, w, h)) := img in
  let position := page_position contentPage in
  image = embedImage contentPage
  /\ x == mmToPoints (offsetX area + pos_x position)
  /\ y + h == mmToPoints (height (PAPER_SIZES paperSize))
              - mmToPoints (offsetY area + pos_y position)
  /\ w == mmToPoints (pxToMm (originalWidth contentPage) 150 * scale position)
  /\ h == mmToPoints (pxToMm (originalHeight contentPage) 150 * scale position).

(** The horizontal extent of the circle [c] is clear of the interval
    [[lo, hi]]: to its right for a left page, to its left for a right page
    ([beyond] tells on which side). *)
Definition circle_clear_of (lo hi : Q) (beyond : bool) (c : Q * Q * Q) : Prop :=
  let '(cx, cy, r) := c in
  if beyond then hi <= cx - r else cx + r <= lo.

(** ** Page thumbnails ([PageThumbnail] and [HoleIndicators] of the page
    preview component)

    Of a component only the geometry it computes is modelled: the boxes
    ([left], [top], [width], [height], in preview pixels) it gives to the
    elements it renders. *)

Record Box := { box_left : Q; box_top : Q; box_width : Q; box_height : Q }.

Definition THUMBNAIL_SCALE : Q := 0.5.

(** The box of the content area in a thumbnail. *)
Definition PageThumbnail_contentBox (binderType : BinderType) (paperSize : PaperSize)
    (enablePadding : bool) (pageSide : PageSide) : Box :=
  let spec := BINDER_SPECS binderType in
  let paper := PAPER_SIZES paperSize in
  let binderPaper := PAPER_SIZES (spec_paperSize spec) in
  let padding := if enablePadding then 5 else 0 in
  let holeMargin := edgeDistance spec + holeDiameter spec / 2 + padding in
  let contentX :=
    ((width paper - width binderPaper) / 2
     + (if bool_decide (pageSide = Right) then holeMargin else 0)) * THUMBNAIL_SCALE in
  let contentY := ((height paper - height binderPaper) / 2) * THUMBNAIL_SCALE in
  let contentWidth := (width binderPaper - holeMargin) * THUMBNAIL_SCALE in
  let contentHeight := height binderPaper * THUMBNAIL_SCALE in
  {| box_left := contentX; box_top := contentY;
     box_width := contentWidth; box_height := contentHeight |}.

(** The boxes of the hole indicators of a thumbnail. *)
Definition HoleIndicators (binderType : BinderType) (paperSize : PaperSize)
    (pageSide : PageSide) : list Box :=
  let spec := BINDER_SPECS binderType in
  let paper := PAPER_SIZES paperSize in
  let binderPaper := PAPER_SIZES (spec_paperSize spec) in
  let holePositions := getHolePositions spec (height binderPaper) in
  let holeX :=
    if bool_decide (pageSide = Left)
    then ((width paper - width binderPaper) / 2 + width binderPaper - edgeDistance spec)
         * THUMBNAIL_SCALE
    else ((width paper - width binderPaper) / 2 + edgeDistance spec) * THUMBNAIL_SCALE in
  let holeSize := holeDiameter spec * THUMBNAIL_SCALE in
  map (fun posY =>
         {| box_left := holeX - holeSize / 2;
            box_top := ((height paper - height binderPaper) / 2 + posY) * THUMBNAIL_SCALE
                       - holeSize / 2;
            box_width := holeSize;
            box_height := holeSize |})
      holePositions.

(** ** Position editor ([src/components/ContentPositionEditor.tsx])

    The component's props, its state ([useState] cells) and its handlers
    as functions from state to state. *)

Definition PREVIEW_SCALE : Q := 2.

Record EditorProps := {
  editor_page : ContentPage;
  editor_binderType : BinderType;
  editor_paperSize : PaperSize;
  editor_pageSide : PageSide;
  editor_enablePadding : bool
}.

Record EditorState := {
  isDragging : bool;
  dragStart : Q * Q;
  editor_position : Position
}.

Record MouseEvent := { clientX : Q; clientY : Q }.

(** The state of a freshly opened editor. *)
Definition editor_open (props : EditorProps) : EditorState :=
  {| isDragging := false;
     dragStart := (0, 0);
     editor_position := page_position (editor_page props) |}.

(** [contentArea] of the component. *)
Definition editor_contentArea (props : EditorProps) : completion ContentArea :=
  getContentArea (editor_binderType props) (editor_paperSize props)
    (editor_pageSide props) (editor_enablePadding props).

(** [contentAreaPreview]: the green box. *)
Definition contentAreaPreview (props : EditorProps) : completion Box :=
  let spec := BINDER_SPECS (editor_binderType props) in
  let paper := PAPER_SIZES (editor_paperSize props) in
  let binderPaper := PAPER_SIZES (spec_paperSize spec) in
  let* contentArea := editor_contentArea props in
  Normal {| box_left :=
              ((width paper - width binderPaper) / 2
               + (if bool_decide (editor_pageSide props = Right)
                  then offsetX contentArea else 0)) * PREVIEW_SCALE;
            box_top := ((height paper - height binderPaper) / 2) * PREVIEW_SCALE;
            box_width := area_width contentArea * PREVIEW_SCALE;
            box_height := area_height contentArea * PREVIEW_SCALE |}.

(** Image dimensions (assuming 150 DPI). *)
Definition imgWidthMm (page : ContentPage) : Q := (originalWidth page / 150) * 25.4.
Definition imgHeightMm (page : ContentPage) : Q := (originalHeight page / 150) * 25.4.

Definition handleMouseDown (e : MouseEvent) (s : EditorState) : EditorState :=
  let position := editor_position s in
  {| isDragging := true;
     dragStart := (clientX e - pos_x position * PREVIEW_SCALE,
                   clientY e - pos_y position * PREVIEW_SCALE);
     editor_position := position |}.

Definition handleMouseMove (e : MouseEvent) (s : EditorState) : EditorState :=
  if negb (isDragging s) then s
  else
    let newX := (clientX e - fst (dragStart s)) / PREVIEW_SCALE in
    let newY := (clientY e - snd (dragStart s)) / PREVIEW_SCALE in
    {| isDragging := isDragging s;
       dragStart := dragStart s;
       editor_position := {| pos_x := newX; pos_y := newY;
                             scale := scale (editor_position s) |} |}.

Definition handleMouseUp (s : EditorState) : EditorState :=
  {| isDragging := false;
     dragStart := dragStart s;
     editor_position := editor_position s |}.

(** [setPosition] with a whole position. *)
Definition setPosition (position : Position) (s : EditorState) : EditorState :=
  {| isDragging := isDragging s;
     dragStart := dragStart s;
     editor_position := position |}.

Definition handleFitToArea (props : EditorProps) (s : EditorState) : completion EditorState :=
  let* contentArea := editor_contentArea props in
  let imgWidthMm := imgWidthMm (editor_page props) in
  let imgHeightMm := imgHeightMm (editor_page props) in
  let scaleX := area_width contentArea / imgWidthMm in
  let scaleY := area_height contentArea / imgHeightMm in
  let fitScale := Qmin scaleX scaleY in
  let scaledWidth := imgWidthMm * fitScale in
  let scaledHeight := imgHeightMm * fitScale in
  let centerX := (area_width contentArea - scaledWidth) / 2 in
  let centerY := (area_height contentArea - scaledHeight) / 2 in
  Normal (setPosition {| pos_x := centerX; pos_y := centerY; scale := fitScale |} s).

Definition handleFillArea (props : EditorProps) (s : EditorState) : completion EditorState :=
  let* contentArea := editor_contentArea props in
  let imgWidthMm := imgWidthMm (editor_page props) in
  let imgHeightMm := imgHeightMm (editor_page props) in
  let scaleX := area_width contentArea / imgWidthMm in
  let scaleY := area_height contentArea / imgHeightMm in
  let fillScale := Qmax scaleX scaleY in
  let scaledWidth := imgWidthMm * fillScale in
  let scaledHeight := imgHeightMm * fillScale in
  let centerX := (area_width contentArea - scaledWidth) / 2 in
  let centerY := (area_height contentArea - scaledHeight) / 2 in
  Normal (setPosition {| pos_x := centerX; pos_y := centerY; scale := fillScale |} s).

Definition handleReset (s : EditorState) : EditorState :=
  setPosition {| pos_x := 0; pos_y := 0; scale := 1 |} s.

(** The page as [handleApply] hands it back: [{ ...page, position }]. *)
Definition with_position (page : ContentPage) (position : Position) : ContentPage :=
  {| page_id := page_id page;
     page_type := page_type page;
     dataUrl := dataUrl page;
     originalWidth := originalWidth page;
     originalHeight := originalHeight page;
     page_position := position |}.

(** The image of the page, scaled, lies within the content area: its own
    offsets and size, in millimetres from the area's top left corner. *)
Definition image_within_area (area : ContentArea) (page : ContentPage)
    (position : Position) : Prop :=
  0 <= pos_x position
  /\ pos_x position + imgWidthMm page * scale position <= area_width area
  /\ 0 <= pos_y position
  /\ pos_y position + imgHeightMm page * scale position <= area_height area.

(** The image of the page, scaled, covers the content area. *)
Definition image_covers_area (area : ContentArea) (page : ContentPage)
    (position : Position) : Prop :=
  pos_x position <= 0
  /\ area_width area <= pos_x position + imgWidthMm page * scale position
  /\ pos_y position <= 0
  /\ area_height area <= pos_y position + imgHeightMm page * scale position.

(** The image is centred in the content area, in both directions. *)
Definition image_centred (area : ContentArea) (page : ContentPage)
    (position : Position) : Prop :=
  pos_x position + imgWidthMm page * scale position + pos_x position == area_width area
  /\ pos_y position + imgHeightMm page * scale position + pos_y position
     == area_height area.

(** The placed image lies within the rectangle the content area occupies
    on the sheet (ordinates in points, from the bottom of the sheet). *)
Definition image_in_area_rect (paperSize : PaperSize) (area : ContentArea)
    (img : PDFImage * (Q * Q * Q * Q)) : Prop :=
  let '(_, (x, y, w, h)) := img in
  let pageHeightPt := mmToPoints (height (PAPER_SIZES paperSize)) in
  mmToPoints (offsetX area) <= x
  /\ x + w <= mmToPoints (offsetX area + area_width area)
  /\ pageHeightPt - mmToPoints (offsetY area + area_height area) <= y
  /\ y + h <= pageHeightPt - mmToPoints (offsetY area).

(** The box is the content area magnified [k] times, moved [dx]
    millimetres to the right. *)
Definition box_shows_area (k dx : Q) (area : ContentArea) (box : Box) : Prop :=
  box_left box == (offsetX area + dx) * k
  /\ box_top box == offsetY area * k
  /\ box_width box == area_width area * k
  /\ box_height box == area_height area * k.

(** The boxes have no common point horizontally: one ends where, or
    before, the other begins. *)
Definition boxes_apart (a b : Box) : Prop :=
  box_left a + box_width a <= box_left b \/ box_left b + box_width b <= box_left a.

(** ** The second version of the services: a side per page

    In the second version of [src/services/pdfGenerator.ts] and
    [src/services/contentProcessor.ts], and in [src/App.tsx], a
    [ContentPage] carries its own [pageSide].  [SidedPage] is that
    [ContentPage]: the fields of the first one and [pageSide]. *)

Record SidedPage := {
  sided_page : ContentPage;
  sided_pageSide : PageSide
}.

(** What lies outside the program: [String.prototype.toLowerCase] and the
    clock.  [Date_now k] is the reading of [Date.now()] at the call of
    [generatePageId] that sets [pageIdCounter] to [k]. *)
Record Env := {
  toLowerCase : string -> string;
  Date_now : nat -> nat
}.

(** A page of a PDF as pdf.js renders it at scale 2: the viewport and
    the PNG data URL of the canvas. *)
Record RenderedPage := {
  viewport_width : Q;
  viewport_height : Q;
  canvas_dataUrl : string
}.

(** An uploaded [File], with what the browser's decoders make of it:
    [readAsDataURL] is the result of [FileReader] ([None]: [onerror]),
    [decodedImage] the width and height of the [Image] loaded from that
    data URL ([None]: [onerror]), [pdfDocument] what pdf.js yields:
    [getDocument] fails or gives the pages, each of which renders or
    fails. *)
Record File := {
  file_type : string;
  readAsDataURL : option string;
  decodedImage : option (Q * Q);
  pdfDocument : completion (list (completion RenderedPage))
}.

Module PerPageSide.

(** *** [src/services/pdfGenerator.ts], second version *)

Record GeneratePdfOptions := {
  pages : list SidedPage;
  binderType : BinderType;
  paperSize : PaperSize;
  pageSide : PageSide;
  enablePadding : bool
}.

(** Generate a duplex-ready PDF with alternating content and outline
    pages.  Each content page uses its own pageSide setting. *)
Definition generatePdf (options : GeneratePdfOptions) : completion (list PDFPage) :=
  let pages := pages options in
  let binderType := binderType options in
  let paperSize := paperSize options in
  let enablePadding := enablePadding options in
  let pdfDoc : list PDFPage := [] in
  let paper := PAPER_SIZES paperSize in
  let pageWidthPt := mmToPoints (width paper) in
  let pageHeightPt := mmToPoints (height paper) in
  fold_left
    (fun (doc : completion (list PDFPage)) contentPage =>
       let* pdfDoc := doc in
       let pageSide := sided_pageSide contentPage in
       let* contentPdfPage :=
         drawContentPage (addPage pageWidthPt pageHeightPt) (sided_page contentPage)
           binderType paperSize pageSide enablePadding in
       let outlinePdfPage :=
         drawOutline (addPage pageWidthPt pageHeightPt) binderType paperSize
           pageSide false Single in
       Normal (pdfDoc ++ [contentPdfPage; outlinePdfPage]))
    pages (Normal pdfDoc).

(** *** [src/services/contentProcessor.ts], second version *)

(** [generatePageId], on the module's counter: the id and the new value
    of [pageIdCounter]. *)
Definition generatePageId (env : Env) (pageIdCounter : nat) : string * nat :=
  let pageIdCounter := S pageIdCounter in
  ("page-" +:+ pretty pageIdCounter +:+ "-" +:+ pretty (Date_now env pageIdCounter),
   pageIdCounter).

(** Helper to get alternating page side. *)
Definition getAlternatingPageSide (index : nat) : PageSide :=
  if (index mod 2 =? 0)%nat then Left else Right.

(** [processImage]: rejects with an [Error] when the file cannot be read
    or the image cannot be loaded; the id is made once the image is
    loaded. *)
Definition processImage (env : Env) (file : File) (pageSide : PageSide)
    (pageIdCounter : nat) : completion SidedPage * nat :=
  match readAsDataURL file with
  | None => (Throw "Error", pageIdCounter)
  | Some dataUrl =>
      match decodedImage file with
      | None => (Throw "Error", pageIdCounter)
      | Some (img_width, img_height) =>
          let '(id, pageIdCounter) := generatePageId env pageIdCounter in
          (Normal {| sided_page :=
                       {| page_id := id;
                          page_type := Image;
                          dataUrl := dataUrl;
                          originalWidth := img_width;
                          originalHeight := img_height;
                          page_position := {| pos_x := 0; pos_y := 0; scale := 1 |} |};
                     sided_pageSide := pageSide |},
           pageIdCounter)
      end
  end.

(** The loop [for (let i = 1; i <= pdf.numPages; i++)] of [processPdf],
    on the pages still to render. *)
Fixpoint processPdf_loop (env : Env) (renders : list (completion RenderedPage))
    (i startIndex : nat) (pages : list SidedPage) (pageIdCounter : nat)
    : completion (list SidedPage) * nat :=
  match renders with
  | [] => (Normal pages, pageIdCounter)
  | Throw e :: _ => (Throw e, pageIdCounter)
  | Normal rendered :: renders =>
      let '(id, pageIdCounter) := generatePageId env pageIdCounter in
      let page :=
        {| sided_page :=
             {| page_id := id;
                page_type := PdfPage;
                dataUrl := canvas_dataUrl rendered;
                originalWidth := viewport_width rendered;
                originalHeight := viewport_height rendered;
                page_position := {| pos_x := 0; pos_y := 0; scale := 1 |} |};
           sided_pageSide := getAlternatingPageSide (startIndex + i - 1) |} in
      processPdf_loop env renders (S i) startIndex (pages ++ [page]) pageIdCounter
  end.

Definition processPdf (env : Env) (file : File) (startIndex : nat)
    (pageIdCounter : nat) : completion (list SidedPage) * nat :=
  match pdfDocument file with
  | Throw e => (Throw e, pageIdCounter)
  | Normal renders => processPdf_loop env renders 1 startIndex [] pageIdCounter
  end.

(** The loop [for (const file of files)] of [processFiles]. *)
Fixpoint processFiles_loop (env : Env) (files : list File) (allPages : list SidedPage)
    (currentIndex : nat) (pageIdCounter : nat) : completion (list SidedPage) * nat :=
  match files with
  | [] => (Normal allPages, pageIdCounter)
  | file :: files =>
      let fileType := toLowerCase env (file_type file) in
      if String.eqb fileType "application/pdf" then
        match processPdf env file currentIndex pageIdCounter with
        | (Throw e, pageIdCounter) => (Throw e, pageIdCounter)
        | (Normal pdfPages, pageIdCounter) =>
            processFiles_loop env files (allPages ++ pdfPages)
              (currentIndex + length pdfPages) pageIdCounter
        end
      else if String.prefix "image/" fileType then
        match processImage env file (getAlternatingPageSide currentIndex) pageIdCounter with
        | (Throw e, pageIdCounter) => (Throw e, pageIdCounter)
        | (Normal imagePage, pageIdCounter) =>
            processFiles_loop env files (allPages ++ [imagePage])
              (currentIndex + 1) pageIdCounter
        end
      else
        processFiles_loop env files allPages currentIndex pageIdCounter
  end.

(** Process files and assign alternating page sides starting from
    startIndex. *)
Definition processFiles (env : Env) (files : list File) (startIndex : nat)
    (pageIdCounter : nat) : completion (list SidedPage) * nat :=
  processFiles_loop env files [] startIndex pageIdCounter.

(** *** [src/App.tsx] *)

Record AppState := {
  app_pages : list SidedPage;
  app_binderType : BinderType;
  app_paperSize : PaperSize;
  app_enablePadding : bool;
  isProcessing : bool;
  isGenerating : bool;
  selectedPageIndex : option nat;
  editingPageIndex : option nat
}.

(** The initial values of the [useState] cells. *)
Definition App_initial : AppState :=
  {| app_pages := [];
     app_binderType := A5_20_Hole;
     app_paperSize := A4;
     app_enablePadding := true;
     isProcessing := false;
     isGenerating := false;
     selectedPageIndex := None;
     editingPageIndex := None |}.

Definition setPages (f : list SidedPage -> list SidedPage) (s : AppState) : AppState :=
  {| app_pages := f (app_pages s);
     app_binderType := app_binderType s;
     app_paperSize := app_paperSize s;
     app_enablePadding := app_enablePadding s;
     isProcessing := isProcessing s;
     isGenerating := isGenerating s;
     selectedPageIndex := selectedPageIndex s;
     editingPageIndex := editingPageIndex s |}.

Definition setIndices (selected editing : option nat) (s : AppState) : AppState :=
  {| app_pages := app_pages s;
     app_binderType := app_binderType s;
     app_paperSize := app_paperSize s;
     app_enablePadding := app_enablePadding s;
     isProcessing := isProcessing s;
     isGenerating := isGenerating s;
     selectedPageIndex := selected;
     editingPageIndex := editing |}.

Definition setIsProcessing (b : bool) (s : AppState) : AppState :=
  {| app_pages := app_pages s;
     app_binderType := app_binderType s;
     app_paperSize := app_paperSize s;
     app_enablePadding := app_enablePadding s;
     isProcessing := b;
     isGenerating := isGenerating s;
     selectedPageIndex := selectedPageIndex s;
     editingPageIndex := editingPageIndex s |}.

Definition setIsGenerating (b : bool) (s : AppState) : AppState :=
  {| app_pages := app_pages s;
     app_binderType := app_binderType s;
     app_paperSize := app_paperSize s;
     app_enablePadding := app_enablePadding s;
     isProcessing := isProcessing s;
     isGenerating := b;
     selectedPageIndex := selectedPageIndex s;
     editingPageIndex := editingPageIndex s |}.

(** [l.filter((x, i) => keep(x, i))], the index starting at [i]. *)
Fixpoint Array_filter {A : Type} (keep : A -> nat -> bool) (l : list A) (i : nat) : list A :=
  match l with
  | [] => []
  | x :: l => if keep x i then x :: Array_filter keep l (S i) else Array_filter keep l (S i)
  end.

(** [{ ...page, position }] and [{ ...page, pageSide }]. *)
Definition page_with_position (page : SidedPage) (position : Position) : SidedPage :=
  {| sided_page := with_position (sided_page page) position;
     sided_pageSide := sided_pageSide page |}.

Definition page_with_pageSide (page : SidedPage) (pageSide : PageSide) : SidedPage :=
  {| sided_page := sided_page page; sided_pageSide := pageSide |}.

(** Handle file upload: the state once the handler has run to its end
    (no other handler running in between), and the counter of page ids. *)
Definition handleFilesSelected (env : Env) (files : list File) (s : AppState)
    (pageIdCounter : nat) : AppState * nat :=
  let s1 := setIsProcessing true s in
  match processFiles env files (length (app_pages s)) pageIdCounter with
  | (Normal newPages, pageIdCounter) =>
      (setIsProcessing false (setPages (fun prev => prev ++ newPages) s1), pageIdCounter)
  | (Throw _, pageIdCounter) =>
      (setIsProcessing false s1, pageIdCounter)
  end.

(** Handle page removal. *)
Definition handleRemovePage (index : nat) (s : AppState) : AppState :=
  setIndices None None
    (setPages (fun prev => Array_filter (fun _ i => negb (i =? index)%nat) prev 0) s).

(** Handle page selection (open position editor). *)
Definition handleSelectPage (index : nat) (s : AppState) : AppState :=
  setIndices (Some index) (Some index) s.

(** Handle position change. *)
Definition handlePositionChange (position : Position) (s : AppState) : AppState :=
  match editingPageIndex s with
  | None => s
  | Some editingPageIndex =>
      setPages (fun prev =>
                  imap (fun i page =>
                          if (i =? editingPageIndex)%nat
                          then page_with_position page position else page) prev) s
  end.

(** Handle per-page side change. *)
Definition handlePageSideChange (index : nat) (pageSide : PageSide) (s : AppState) : AppState :=
  setPages (fun prev =>
              imap (fun i page =>
                      if (i =? index)%nat then page_with_pageSide page pageSide else page)
                   prev) s.

(** Clear all pages. *)
Definition handleClearAll (s : AppState) : AppState :=
  setIndices None None (setPages (fun _ => []) s).

(** Get current page for editor. *)
Definition editingPage (s : AppState) : option SidedPage :=
  match editingPageIndex s with
  | Some i => app_pages s !! i
  | None => None
  end.

(** Handle PDF generation: the state once the handler has run to its end
    and the document handed to the download, if any. *)
Definition handleGenerate (s : AppState) : AppState * option (list PDFPage) :=
  if (length (app_pages s) =? 0)%nat then (s, None)
  else
    let s1 := setIsGenerating true s in
    match generatePdf {| pages := app_pages s;
                         binderType := app_binderType s;
                         paperSize := app_paperSize s;
                         pageSide := Left;
                         enablePadding := app_enablePadding s |} with
    | Normal pdfBytes => (setIsGenerating false s1, Some pdfBytes)
    | Throw _ => (setIsGenerating false s1, None)
    end.

End PerPageSide.

(** Page [k] of the list is a left page when [startIndex + k] is even and
    a right page when it is odd. *)
Definition alternates_from (startIndex : nat) (pages : list SidedPage) : Prop :=
  forall k page,
    pages !! k = Some page ->
    sided_pageSide page = PerPageSide.getAlternatingPageSide (startIndex + k).

(** The file is one [processFiles] handles: a PDF or an image. *)
Definition supported (env : Env) (file : File) : bool :=
  let fileType := toLowerCase env (file_type file) in
  String.eqb fileType "application/pdf" || String.prefix "image/" fileType.

(** An environment and files to try the upload on. *)
Definition sample_env : Env := {| toLowerCase := fun s => s; Date_now := fun k => (1700 + k)%nat |}.

Definition sample_image_file : File :=
  {| file_type := "image/png";
     readAsDataURL := Some "data:image/png;base64,iVBORw0KGgo=";
     decodedImage := Some (874, 1240);
     pdfDocument := Throw "InvalidPDFException" |}.

Definition sample_pdf_file : File :=
  {| file_type := "application/pdf";
     readAsDataURL := Some "data:application/pdf;base64,JVBERi0=";
     decodedImage := None;
     pdfDocument :=
       Normal [ Normal {| viewport_width := 1190; viewport_height := 1684;
                          canvas_dataUrl := "data:image/png;base64,AAAA" |};
                Normal {| viewport_width := 1190; viewport_height := 1684;
                          canvas_dataUrl := "data:image/png;base64,BBBB" |} ] |}.

Definition sample_text_file : File :=
  {| file_type := "text/plain";
     readAsDataURL := Some "data:text/plain;base64,aGk=";
     decodedImage := None;
     pdfDocument := Throw "InvalidPDFException" |}.

(** The id [generatePageId] makes when it sets the counter to [k]. *)
Definition page_id_at (env : Env) (k : nat) : string :=
  "page-" +:+ pretty k +:+ "-" +:+ pretty (Date_now env k).

(** No character of the string is a dash. *)
Fixpoint dashless (s : string) : Prop :=
  match s with
  | EmptyString => True
  | String c s => c <> "-"%char /\ dashless s
  end.

(** The file decodes completely: a PDF opens and all its pages render, an
    image is read and loaded; other files have nothing to decode. *)
Definition decodes (env : Env) (file : File) : bool :=
  let fileType := toLowerCase env (file_type file) in
  if String.eqb fileType "application/pdf" then
    match pdfDocument file with
    | Normal renders =>
        forallb (fun r => match r with Normal _ => true | Throw _ => false end) renders
    | Throw _ => false
    end
  else if String.prefix "image/" fileType then
    match readAsDataURL file, decodedImage file with
    | Some _, Some _ => true
    | _, _ => false
    end
  else true.

(** * Properties *)

(** ** Hole positions *)

Lemma num_S (i : nat) : num (S i) == num i + 1.
Proof.
  unfold num. rewrite Nat2Z.inj_succ, <- Z.add_1_r, inject_Z_plus. reflexivity.
Qed.

Lemma num_sub (n i : nat) : (i <= n)%nat -> num (n - i) == num n - num i.
Proof.
  intros Hle. unfold num. rewrite Nat2Z.inj_sub by exact Hle.
  unfold Z.sub. rewrite inject_Z_plus, inject_Z_opp. reflexivity.
Qed.

Lemma Array_from_length (n : nat) (f : Q -> Q) : length (Array_from n f) = n.
Proof. unfold Array_from. rewrite length_map. apply length_seq. Qed.

Lemma Array_from_lookup (n : nat) (f : Q -> Q) (i : nat) :
  (i < n)%nat -> Array_from n f !! i = Some (f (num i)).
Proof.
  intros Hi. unfold Array_from.
  rewrite list_lookup_fmap, lookup_seq_lt by exact Hi. reflexivity.
Qed.

Lemma nondecreasing_map_seq (g : nat -> Q) (n s : nat) :
  (forall i, g i <= g (S i)) -> nondecreasing (map g (seq s n)).
Proof.
  intros Hstep. revert s.
  induction n as [|n IH]; intros s; [exact I|].
  destruct n as [|n]; [exact I|].
  split; [apply Hstep | apply (IH (S s))].
Qed.

Lemma Array_from_nondecreasing (n : nat) (f : Q -> Q) :
  (forall i, f (num i) <= f (num (S i))) -> nondecreasing (Array_from n f).
Proof.
  intros Hstep. unfold Array_from.
  apply (nondecreasing_map_seq (fun i => f (num i))). exact Hstep.
Qed.

Lemma getHolePositions_length (t : BinderType) (h : Q) :
  length (getHolePositions (BINDER_SPECS t) h) = holeCount (BINDER_SPECS t).
Proof. destruct t; reflexivity. Qed.

Lemma getHolePositions_nondecreasing (t : BinderType) (h : Q) :
  nondecreasing (getHolePositions (BINDER_SPECS t) h).
Proof.
  destruct t; cbn [BINDER_SPECS getHolePositions a5_20_hole a5_2_hole
                   a5_6_hole_filofax a5_6_hole_standard a4_4_hole].
  - apply Array_from_nondecreasing. intros i. rewrite num_S. qlin.
  - cbn. repeat split; qlin.
  - cbn. repeat split; qlin.
  - cbn. repeat split; qlin.
  - apply Array_from_nondecreasing. intros i. rewrite num_S. qlin.
Qed.

(** C4: for each of the five catalog standards and every sheet height
    between 100mm and 400mm, [getHolePositions] returns exactly
    [holeCount] offsets, in non-decreasing order. *)
Theorem getHolePositions_count_and_order (t : BinderType) (h : Q) :
  t ∈ catalog ->
  100 <= h <= 400 ->
  length (getHolePositions (BINDER_SPECS t) h) = holeCount (BINDER_SPECS t)
  /\ nondecreasing (getHolePositions (BINDER_SPECS t) h).
Proof.
  intros _ _. split.
  - apply getHolePositions_length.
  - apply getHolePositions_nondecreasing.
Qed.

Lemma getHolePositions_count_and_order_witness :
  A5_6_Hole_Filofax ∈ catalog /\ 100 <= 210 <= 400
  /\ length (getHolePositions (BINDER_SPECS A5_6_Hole_Filofax) 210) = 6%nat
  /\ nondecreasing (getHolePositions (BINDER_SPECS A5_6_Hole_Filofax) 210).
Proof.
  assert (Hin : A5_6_Hole_Filofax ∈ catalog) by (unfold catalog; set_solver).
  assert (Hr : 100 <= 210 <= 400) by (split; discriminate).
  split; [exact Hin|]. split; [exact Hr|].
  exact (getHolePositions_count_and_order A5_6_Hole_Filofax 210 Hin Hr).
Defined.

Lemma catalog_complete (t : BinderType) : t ∈ catalog.
Proof. unfold catalog. destruct t; set_solver. Qed.

Lemma catalog_even_holeCount (t : BinderType) : Nat.Even (holeCount (BINDER_SPECS t)).
Proof.
  destruct t; cbn;
    [exists 10%nat | exists 1%nat | exists 3%nat | exists 3%nat | exists 2%nat];
    reflexivity.
Qed.

(** Exact form of the symmetry: opposite offsets add up to the height. *)
Lemma getHolePositions_mirror (t : BinderType) (h : Q) (i : nat) (a b : Q) :
  getHolePositions (BINDER_SPECS t) h !! i = Some a ->
  getHolePositions (BINDER_SPECS t) h !! (holeCount (BINDER_SPECS t) - 1 - i)%nat = Some b ->
  a + b == h.
Proof.
  intros Ha Hb.
  assert (Hi : (i < holeCount (BINDER_SPECS t))%nat).
  { rewrite <- (getHolePositions_length t h). eapply lookup_lt_Some, Ha. }
  destruct t;
    cbn [BINDER_SPECS getHolePositions holeCount a5_20_hole a5_2_hole
         a5_6_hole_filofax a5_6_hole_standard a4_4_hole] in *.
  - rewrite Array_from_lookup in Ha, Hb by lia.
    injection Ha as <-. injection Hb as <-.
    replace (20 - 1 - i)%nat with (19 - i)%nat by lia.
    rewrite num_sub by lia. change (num 19) with 19. qlin.
  - destruct i as [|[|i]]; [| |lia]; cbn in Ha, Hb;
      injection Ha as <-; injection Hb as <-; qlin.
  - destruct i as [|[|[|[|[|[|i]]]]]]; [| | | | | |lia]; cbn in Ha, Hb;
      injection Ha as <-; injection Hb as <-; qlin.
  - destruct i as [|[|[|[|[|[|i]]]]]]; [| | | | | |lia]; cbn in Ha, Hb;
      injection Ha as <-; injection Hb as <-; qlin.
  - rewrite Array_from_lookup in Ha, Hb by lia.
    injection Ha as <-. injection Hb as <-.
    replace (4 - 1 - i)%nat with (3 - i)%nat by lia.
    rewrite num_sub by lia. change (num 3) with 3. qlin.
Qed.

(** C8: for every catalog standard (each has an even hole count) and
    every sheet height [h], the list [getHolePositions h] is symmetric
    about [h/2]: the i-th offset from the start plus the i-th offset from
    the end differs from [h] by at most 1e-6 (in exact arithmetic, by 0). *)
Theorem getHolePositions_symmetric (t : BinderType) (h : Q) :
  Nat.Even (holeCount (BINDER_SPECS t))
  /\ symmetric_about_half (1 # 1000000) h (getHolePositions (BINDER_SPECS t) h).
Proof.
  split; [apply catalog_even_holeCount|].
  intros i a b Ha Hb. rewrite getHolePositions_length in Hb.
  assert (E : a + b - h == 0).
  { rewrite (getHolePositions_mirror t h i a b Ha Hb). ring. }
  rewrite E. discriminate.
Qed.

(** Every position handed to [drawHoles] becomes one circle, whatever its
    sign or size: the loop has no test. *)
Lemma drawHoles_circles (page : PDFPage) (holeX areaY holeRadius : Q) (positions : list Q) :
  circlesOf (drawHoles page holeX areaY holeRadius positions)
  = circlesOf page
    ++ map (fun posY => (holeX, areaY + mmToPoints posY, holeRadius)) positions.
Proof.
  unfold drawHoles. revert page.
  induction positions as [|posY positions IH]; intros page; cbn [fold_left map].
  - symmetry. apply app_nil_r.
  - rewrite IH. unfold circlesOf at 1. cbn [draw calls].
    rewrite omap_app. cbn. rewrite <- app_assoc. reflexivity.
Qed.

(** C10: for the a5-20-hole standard and every page height below
    184.3mm (such as 100mm, inside the 100mm-400mm range) the first
    returned offset is [(pageHeight - 184.3) / 2], which is negative; the
    list still has its 20 entries, and the hole loop of the outline drawers
    turns every position it is given into a circle at
    [areaY + mmToPoints posY], with no clamping, filtering or rejection. *)
Theorem a5_20_hole_first_offset_negative (pageHeight : Q) :
  pageHeight < 184.3 ->
  (exists first : Q,
      getHolePositions a5_20_hole pageHeight !! 0%nat = Some first
      /\ first == (pageHeight - 184.3) / 2
      /\ first < 0)
  /\ length (getHolePositions a5_20_hole pageHeight) = 20%nat
  /\ (forall page holeX areaY holeRadius,
        circlesOf (drawHoles page holeX areaY holeRadius
                     (getHolePositions a5_20_hole pageHeight))
        = circlesOf page
          ++ map (fun posY => (holeX, areaY + mmToPoints posY, holeRadius))
               (getHolePositions a5_20_hole pageHeight)).
Proof.
  intros Hlow. split; [|split].
  - eexists. split; [reflexivity|]. change (num 0) with 0. split; qlin.
  - reflexivity.
  - intros. apply drawHoles_circles.
Qed.

Lemma a5_20_hole_first_offset_negative_witness :
  (100 <= 100 <= 400 /\ 100 < 184.3)
  /\ exists first : Q,
      getHolePositions a5_20_hole 100 !! 0%nat = Some first
      /\ first == (100 - 184.3) / 2
      /\ first < 0.
Proof.
  assert (Hlow : 100 < 184.3) by reflexivity.
  split; [split; [split; discriminate | exact Hlow]|].
  exact (proj1 (a5_20_hole_first_offset_negative 100 Hlow)).
Defined.

(** ** Content area *)

(** C3: when the target paper size is the standard's native size,
    [getContentArea] returns width = native width - holeMargin, height =
    native height, offsetY = 0 and offsetX = 0 for a left page, holeMargin
    for a right page, with holeMargin = edgeDistance + holeDiameter/2 +
    (5 with padding, else 0); for the 20-hole standard on A5, left page, no
    padding, holeMargin is 8.5 and the area is 139.5 x 210 at (0, 0). *)
Theorem getContentArea_native_size (t : BinderType) (paperSize : PaperSize)
    (pageSide : PageSide) (enablePadding : bool) :
  paperSize = spec_paperSize (BINDER_SPECS t) ->
  (exists area : ContentArea,
      getContentArea t paperSize pageSide enablePadding = Normal area
      /\ area_width area
         == width (PAPER_SIZES (spec_paperSize (BINDER_SPECS t)))
            - holeMarginOf (BINDER_SPECS t) enablePadding
      /\ area_height area == height (PAPER_SIZES (spec_paperSize (BINDER_SPECS t)))
      /\ offsetY area == 0
      /\ offsetX area
         == match pageSide with
            | Left => 0
            | Right => holeMarginOf (BINDER_SPECS t) enablePadding
            end)
  /\ holeMarginOf a5_20_hole false == 8.5
  /\ (exists area : ContentArea,
         getContentArea A5_20_Hole A5 Left false = Normal area
         /\ area_width area == 139.5 /\ area_height area == 210
         /\ offsetX area == 0 /\ offsetY area == 0).
Proof.
  intros ->. split; [|split].
  - unfold getContentArea, getContentAreaFor.
    rewrite bool_decide_eq_true_2 by reflexivity.
    eexists. split; [reflexivity|].
    cbn [area_width area_height offsetX offsetY]. unfold holeMarginOf.
    repeat split; try reflexivity.
    destruct pageSide; reflexivity.
  - reflexivity.
  - eexists. split; [reflexivity|]. repeat split; reflexivity.
Qed.

Lemma getContentArea_native_size_witness :
  A4 = spec_paperSize (BINDER_SPECS A4_4_Hole)
  /\ exists area : ContentArea,
      getContentArea A4_4_Hole A4 Right true = Normal area
      /\ area_width area == 191 /\ area_height area == 297
      /\ offsetY area == 0 /\ offsetX area == 19.
Proof.
  split; [reflexivity|].
  destruct (getContentArea_native_size A4_4_Hole A4 Right true eq_refl)
    as [[area (Hret & Hw & Hh & Hy & Hx)] _].
  exists area. split; [exact Hret|].
  repeat split; [rewrite Hw | rewrite Hh | rewrite Hy | rewrite Hx]; reflexivity.
Defined.

(** ** Content scaling *)



(** [getContentAreaFor] always returns, with the width and height it
    computed, whatever their sign. *)
Lemma getContentAreaFor_returns (spec : BinderSpec) (paperSize : PaperSize)
    (pageSide : PageSide) (enablePadding : bool) :
  exists area : ContentArea,
    getContentAreaFor spec paperSize pageSide enablePadding = Normal area
    /\ area_width area
       == width (PAPER_SIZES (spec_paperSize spec)) - holeMarginOf spec enablePadding
    /\ area_height area == height (PAPER_SIZES (spec_paperSize spec)).
Proof.
  unfold getContentAreaFor.
  match goal with
  | |- context [let '(x, y) := ?p in _] => destruct p as [ox oy]
  end.
  eexists. split; [reflexivity|]. split; reflexivity.
Qed.



(** ** Registry lookup *)

Lemma BINDER_SPECS_object_lookup (t : BinderType) :
  BINDER_SPECS_object !! BinderType_key t = Some (BINDER_SPECS t).
Proof. destruct t; reflexivity. Qed.

Lemma BINDER_SPECS_object_lookup_other (type : string) :
  (forall t, BinderType_key t <> type) -> BINDER_SPECS_object !! type = None.
Proof.
  intros Hother. unfold BINDER_SPECS_object.
  rewrite lookup_insert_ne by exact (Hother A5_20_Hole).
  rewrite lookup_insert_ne by exact (Hother A5_2_Hole).
  rewrite lookup_insert_ne by exact (Hother A5_6_Hole_Filofax).
  rewrite lookup_insert_ne by exact (Hother A5_6_Hole_Standard).
  rewrite lookup_insert_ne by exact (Hother A4_4_Hole).
  apply lookup_empty.
Qed.


Lemma unknown_key_not_in_catalog : forall t, BinderType_key t <> "a4-2-hole".
Proof. intros t. destruct t; discriminate. Qed.



(** ** Outline drawing *)

Lemma circlesOf_draw (page : PDFPage) (c : DrawCall) :
  circlesOf (draw page c)
  = circlesOf page
    ++ match c with
       | drawCircle x y size _ _ => [(x, y, size)]
       | _ => []
       end.
Proof.
  unfold circlesOf, draw. cbn [calls]. rewrite omap_app.
  destruct c; reflexivity.
Qed.

Lemma rectanglesOf_draw (page : PDFPage) (c : DrawCall) :
  rectanglesOf (draw page c)
  = rectanglesOf page
    ++ match c with
       | drawRectangle x y w h _ _ => [(x, y, w, h)]
       | _ => []
       end.
Proof.
  unfold rectanglesOf, draw. cbn [calls]. rewrite omap_app.
  destruct c; reflexivity.
Qed.

Lemma circlesOf_drawCropMarks (page : PDFPage) (areaX areaY areaWidth areaHeight : Q) :
  circlesOf (drawCropMarks page areaX areaY areaWidth areaHeight) = circlesOf page.
Proof.
  unfold drawCropMarks. cbn [fold_left].
  rewrite !circlesOf_draw. cbn [app]. rewrite !app_nil_r. reflexivity.
Qed.

Lemma rectanglesOf_drawCropMarks (page : PDFPage) (areaX areaY areaWidth areaHeight : Q) :
  rectanglesOf (drawCropMarks page areaX areaY areaWidth areaHeight) = rectanglesOf page.
Proof.
  unfold drawCropMarks. cbn [fold_left].
  rewrite !rectanglesOf_draw. cbn [app]. rewrite !app_nil_r. reflexivity.
Qed.

Lemma rectanglesOf_drawHoles (page : PDFPage) (holeX areaY holeRadius : Q) (positions : list Q) :
  rectanglesOf (drawHoles page holeX areaY holeRadius positions) = rectanglesOf page.
Proof.
  unfold drawHoles. revert page.
  induction positions as [|posY positions IH]; intros page; cbn [fold_left].
  - reflexivity.
  - rewrite IH, rectanglesOf_draw. apply app_nil_r.
Qed.

(** What [drawOutlineAt] adds to a page: the trim rectangle of the area
    and one circle per hole position, on the left edge of the area for a
    left page and on its right edge for a right page. *)
Lemma drawOutlineAt_marks (page : PDFPage) (t : BinderType) (pageSide : PageSide)
    (x y w h : Q) :
  rectanglesOf (drawOutlineAt page t pageSide x y w h)
  = rectanglesOf page ++ [(x, y, w, h)]
  /\ circlesOf (drawOutlineAt page t pageSide x y w h)
     = circlesOf page
       ++ map (fun posY =>
                 (match pageSide with
                  | Left => x + mmToPoints (edgeDistance (BINDER_SPECS t))
                  | Right => x + w - mmToPoints (edgeDistance (BINDER_SPECS t))
                  end,
                  y + mmToPoints posY,
                  mmToPoints (holeDiameter (BINDER_SPECS t)) / 2))
           (getHolePositions (BINDER_SPECS t)
              (height (PAPER_SIZES (spec_paperSize (BINDER_SPECS t))))).
Proof.
  unfold drawOutlineAt. split.
  - rewrite rectanglesOf_drawCropMarks, rectanglesOf_drawHoles, rectanglesOf_draw.
    reflexivity.
  - rewrite circlesOf_drawCropMarks, drawHoles_circles, circlesOf_draw, app_nil_r.
    destruct pageSide; reflexivity.
Qed.

(** What [drawOutline] adds to a page: the trim rectangle at
    [outlineOrigin], of the native size, and one circle per hole position,
    on the right edge of the area for a left page and on its left edge for
    a right page. *)
Lemma drawOutline_marks (page : PDFPage) (t : BinderType) (paperSize : PaperSize)
    (pageSide : PageSide) (is2Up : bool) (position : OutlinePosition) :
  let x := fst (outlineOrigin t paperSize is2Up position) in
  let y := snd (outlineOrigin t paperSize is2Up position) in
  let w := mmToPoints (width (PAPER_SIZES (spec_paperSize (BINDER_SPECS t)))) in
  let h := mmToPoints (height (PAPER_SIZES (spec_paperSize (BINDER_SPECS t)))) in
  rectanglesOf (drawOutline page t paperSize pageSide is2Up position)
  = rectanglesOf page ++ [(x, y, w, h)]
  /\ circlesOf (drawOutline page t paperSize pageSide is2Up position)
     = circlesOf page
       ++ map (fun posY =>
                 (match pageSide with
                  | Left => x + w - mmToPoints (edgeDistance (BINDER_SPECS t))
                  | Right => x + mmToPoints (edgeDistance (BINDER_SPECS t))
                  end,
                  y + mmToPoints posY,
                  mmToPoints (holeDiameter (BINDER_SPECS t)) / 2))
           (getHolePositions (BINDER_SPECS t)
              (height (PAPER_SIZES (spec_paperSize (BINDER_SPECS t))))).
Proof.
  intros x y w h. subst x y w h. unfold drawOutline.
  destruct (outlineOrigin t paperSize is2Up position) as [areaX areaY].
  cbn [fst snd]. split.
  - rewrite rectanglesOf_drawCropMarks, rectanglesOf_drawHoles, rectanglesOf_draw.
    reflexivity.
  - rewrite circlesOf_drawCropMarks, drawHoles_circles, circlesOf_draw, app_nil_r.
    destruct pageSide; reflexivity.
Qed.



(** ** 2-up sheets *)

Lemma imagesOf_draw (page : PDFPage) (c : DrawCall) :
  imagesOf (draw page c)
  = imagesOf page
    ++ match c with
       | drawImage image x y w h => [(image, (x, y, w, h))]
       | _ => []
       end.
Proof.
  unfold imagesOf, draw. cbn [calls]. rewrite omap_app.
  destruct c; reflexivity.
Qed.

(** The image [drawContentPageAt] adds is placed in the given area. *)
Lemma drawContentPageAt_image (page : PDFPage) (contentPage : ContentPage)
    (t : BinderType) (pageSide : PageSide) (enablePadding : bool) (areaX areaY : Q) :
  exists img,
    imagesOf (drawContentPageAt page contentPage t pageSide enablePadding
                areaX areaY subAreaWidth subAreaHeight)
    = imagesOf page ++ [img]
    /\ placed_in_subarea t pageSide enablePadding areaX img (contentPage, areaY).
Proof.
  unfold drawContentPageAt. rewrite imagesOf_draw.
  eexists. split; [reflexivity|].
  unfold placed_in_subarea, holeMarginOf. split; [reflexivity|]. split.
  - destruct pageSide.
    + change (bool_decide (Left = Right)) with false. cbv iota. ring.
    + change (bool_decide (Right = Right)) with true. cbv iota. reflexivity.
  - ring.
Qed.

(** The content sheet of a pass: the first page in the top sub-area, the
    second, when there is one, in the bottom sub-area. *)
Lemma draw2UpSheets_content (firstPage : ContentPage) (secondPage : option ContentPage)
    (t : BinderType) (pageSide : PageSide) (enablePadding : bool) :
  Forall2 (placed_in_subarea t pageSide enablePadding 0)
    (imagesOf (fst (draw2UpSheets firstPage secondPage t pageSide enablePadding)))
    (slotsOf firstPage secondPage).
Proof.
  unfold draw2UpSheets, slotsOf. cbn [fst].
  fold sheetWidth sheetHeight subAreaWidth subAreaHeight. fold topAreaY.
  destruct (drawContentPageAt_image (addPage sheetWidth sheetHeight) firstPage
              t pageSide enablePadding 0 topAreaY) as [img1 [E1 P1]].
  destruct secondPage as [secondPage|].
  - destruct (drawContentPageAt_image
                (drawContentPageAt (addPage sheetWidth sheetHeight) firstPage
                   t pageSide enablePadding 0 topAreaY subAreaWidth subAreaHeight)
                secondPage t pageSide enablePadding 0 0) as [img2 [E2 P2]].
    rewrite E2, E1. cbn [imagesOf addPage calls omap app].
    constructor; [exact P1|]. constructor; [exact P2|]. constructor.
  - rewrite E1. cbn [imagesOf addPage calls omap app].
    constructor; [exact P1|]. constructor.
Qed.

(** The outline sheet of a pass: the trim rectangle drawn for the first
    page is in the bottom half, the one drawn for the second page, when
    there is one, in the top half; both start at
    [sheetWidth - subAreaWidth]. *)
Lemma draw2UpSheets_outline (firstPage : ContentPage) (secondPage : option ContentPage)
    (t : BinderType) (pageSide : PageSide) (enablePadding : bool) :
  rectanglesOf (snd (draw2UpSheets firstPage secondPage t pageSide enablePadding))
  = (sheetWidth - subAreaWidth, bottomAreaY, subAreaWidth, subAreaHeight)
    :: match secondPage with
       | Some _ => [(sheetWidth - subAreaWidth, topAreaY, subAreaWidth, subAreaHeight)]
       | None => []
       end.
Proof.
  unfold draw2UpSheets. cbn [snd].
  fold sheetWidth sheetHeight subAreaWidth subAreaHeight. fold topAreaY.
  destruct secondPage as [secondPage|].
  - rewrite (proj1 (drawOutlineAt_marks _ _ _ _ _ _ _)).
    rewrite (proj1 (drawOutlineAt_marks _ _ _ _ _ _ _)). reflexivity.
  - rewrite (proj1 (drawOutlineAt_marks _ _ _ _ _ _ _)). reflexivity.
Qed.

(** The loop of [generate2UpPages]: given enough fuel it keeps the pages
    already in the document and adds, for each index [i + 2k] below
    [length pages], the content sheet and the outline sheet of that pass. *)
Lemma generate2UpPages_from_spec (pages : list ContentPage) (t : BinderType)
    (pageSide : PageSide) (enablePadding : bool) (fuel : nat) :
  forall (i : nat) (pdfDoc : list PDFPage),
    (length pages <= i + 2 * fuel)%nat ->
    let out := generate2UpPages_from fuel i pdfDoc pages t pageSide enablePadding in
    length out = (length pdfDoc + 2 * ((length pages - i + 1) / 2))%nat
    /\ (forall j, (j < length pdfDoc)%nat -> out !! j = pdfDoc !! j)
    /\ (forall k firstPage,
          pages !! (i + 2 * k)%nat = Some firstPage ->
          let sheets := draw2UpSheets firstPage (pages !! (i + 2 * k + 1)%nat)
                          t pageSide enablePadding in
          out !! (length pdfDoc + 2 * k)%nat = Some (fst sheets)
          /\ out !! (length pdfDoc + 2 * k + 1)%nat = Some (snd sheets)).
Proof.
  induction fuel as [|fuel IH]; intros i pdfDoc Hfuel; cbn zeta.
  - cbn [generate2UpPages_from].
    replace (length pages - i + 1)%nat with 1%nat by lia.
    split; [cbn; lia|]. split; [reflexivity|].
    intros k firstPage Hk. apply lookup_lt_Some in Hk. lia.
  - cbn [generate2UpPages_from].
    destruct (pages !! i) as [firstPage|] eqn:Hi.
    + destruct (draw2UpSheets firstPage (pages !! (i + 1)%nat) t pageSide enablePadding)
        as [contentPdfPage outlinePdfPage] eqn:Hsheets.
      pose proof (lookup_lt_Some _ _ _ Hi) as Hlt.
      destruct (IH (i + 2)%nat (pdfDoc ++ [contentPdfPage; outlinePdfPage]))
        as (Hlen & Hkeep & Hnew); [lia|].
      rewrite length_app in Hlen, Hkeep, Hnew. cbn [length] in Hlen, Hkeep, Hnew.
      split; [|split].
      * rewrite Hlen.
        assert (E : ((length pages - i + 1) / 2
                     = (length pages - (i + 2) + 1) / 2 + 1)%nat).
        { destruct (decide (length pages = (i + 1)%nat)) as [E1|NE].
          - rewrite E1.
            replace (i + 1 - i + 1)%nat with 2%nat by lia.
            replace (i + 1 - (i + 2) + 1)%nat with 1%nat by lia. reflexivity.
          - replace (length pages - i + 1)%nat
              with ((length pages - (i + 2) + 1) + 1 * 2)%nat by lia.
            rewrite Nat.div_add by lia. reflexivity. }
        rewrite E. lia.
      * intros j Hj. rewrite Hkeep by lia. apply lookup_app_l. exact Hj.
      * intros k first Hk. destruct k as [|k].
        -- replace (i + 2 * 0)%nat with i in * by lia.
           rewrite Hi in Hk. injection Hk as <-. rewrite Hsheets. cbn [fst snd].
           rewrite !Hkeep by lia.
           replace (length pdfDoc + 2 * 0)%nat with (length pdfDoc + 0)%nat by lia.
           rewrite !lookup_app_r by lia.
           replace (length pdfDoc + 0 - length pdfDoc)%nat with 0%nat by lia.
           replace (length pdfDoc + 0 + 1 - length pdfDoc)%nat with 1%nat by lia.
           split; reflexivity.
        -- replace (i + 2 * S k)%nat with (i + 2 + 2 * k)%nat in * by lia.
           specialize (Hnew k first Hk). cbn zeta in Hnew.
           replace (length pdfDoc + 2 * S k)%nat with (length pdfDoc + 2 + 2 * k)%nat by lia.
           exact Hnew.
    + apply lookup_ge_None in Hi.
      replace (length pages - i + 1)%nat with 1%nat by lia.
      split; [cbn; lia|]. split; [reflexivity|].
      intros k firstPage Hk. apply lookup_lt_Some in Hk. lia.
Qed.

(** [generatePdf] in 2-up mode returns the [ceil(n/2)] pairs of sheets. *)
Lemma generatePdf_2up_sheets (options : GeneratePdfOptions) :
  use2Up options = true ->
  exists doc,
    generatePdf options = Normal doc
    /\ length doc = (2 * ((length (opt_pages options) + 1) / 2))%nat
    /\ (forall k firstPage,
          opt_pages options !! (2 * k)%nat = Some firstPage ->
          let sheets := draw2UpSheets firstPage (opt_pages options !! (2 * k + 1)%nat)
                          (opt_binderType options) (opt_pageSide options)
                          (opt_enablePadding options) in
          doc !! (2 * k)%nat = Some (fst sheets)
          /\ doc !! (2 * k + 1)%nat = Some (snd sheets)).
Proof.
  intros H2up. unfold generatePdf. rewrite H2up.
  eexists. split; [reflexivity|]. unfold generate2UpPages.
  destruct (generate2UpPages_from_spec (opt_pages options) (opt_binderType options)
              (opt_pageSide options) (opt_enablePadding options)
              (length (opt_pages options)) 0%nat [])
    as (Hlen & _ & Hnew); [lia|].
  cbn [length] in Hlen, Hnew. split.
  - rewrite Hlen. rewrite Nat.sub_0_r. reflexivity.
  - intros k firstPage Hk. apply (Hnew k firstPage Hk).
Qed.

Lemma ceil_half_cases (n : nat) :
  (Nat.Even n /\ (2 * ((n + 1) / 2) = n)%nat)
  \/ (Nat.Odd n /\ (2 * ((n + 1) / 2) = n + 1)%nat).
Proof.
  destruct (Nat.Even_or_Odd n) as [[m ->]|[m ->]].
  - left. split; [exists m; reflexivity|].
    replace (2 * m + 1)%nat with (1 + m * 2)%nat by lia.
    rewrite Nat.div_add by lia. cbn. lia.
  - right. split; [exists m; reflexivity|].
    replace (2 * m + 1 + 1)%nat with (0 + (m + 1) * 2)%nat by lia.
    rewrite Nat.div_add by lia. cbn. lia.
Qed.

Lemma use2Up_iff (options : GeneratePdfOptions) :
  use2Up options = true
  <-> opt_paperSize options = A4
      /\ spec_paperSize (BINDER_SPECS (opt_binderType options)) = A5
      /\ (2 <= length (opt_pages options))%nat.
Proof.
  unfold use2Up. rewrite !andb_true_iff, !bool_decide_eq_true. intuition lia.
Qed.

(** The sheets of pass [k] in 2-up mode. *)
Lemma generatePdf_2up_pass (options : GeneratePdfOptions) (doc : list PDFPage) (k : nat) :
  (forall k firstPage,
      opt_pages options !! (2 * k)%nat = Some firstPage ->
      let sheets := draw2UpSheets firstPage (opt_pages options !! (2 * k + 1)%nat)
                      (opt_binderType options) (opt_pageSide options)
                      (opt_enablePadding options) in
      doc !! (2 * k)%nat = Some (fst sheets)
      /\ doc !! (2 * k + 1)%nat = Some (snd sheets)) ->
  (k < (length (opt_pages options) + 1) / 2)%nat ->
  exists firstPage content outline,
    opt_pages options !! (2 * k)%nat = Some firstPage
    /\ doc !! (2 * k)%nat = Some content
    /\ doc !! (2 * k + 1)%nat = Some outline
    /\ Forall2 (placed_in_subarea (opt_binderType options) (opt_pageSide options)
                  (opt_enablePadding options) 0)
         (imagesOf content)
         (slotsOf firstPage (opt_pages options !! (2 * k + 1)%nat))
    /\ rectanglesOf outline
       = (sheetWidth - subAreaWidth, bottomAreaY, subAreaWidth, subAreaHeight)
         :: match opt_pages options !! (2 * k + 1)%nat with
            | Some _ => [(sheetWidth - subAreaWidth, topAreaY, subAreaWidth, subAreaHeight)]
            | None => []
            end.
Proof.
  intros Hdoc Hk.
  assert (Hlt : (2 * k < length (opt_pages options))%nat).
  { destruct (ceil_half_cases (length (opt_pages options))) as [[_ E]|[[m Hm] E]]; lia. }
  destruct (lookup_lt_is_Some_2 _ _ Hlt) as [firstPage Hfirst].
  destruct (Hdoc k firstPage Hfirst) as [Hc Ho].
  exists firstPage. eexists. eexists.
  split; [exact Hfirst|]. split; [exact Hc|]. split; [exact Ho|]. split.
  - apply draw2UpSheets_content.
  - apply draw2UpSheets_outline.
Qed.






(** ** Concrete scenarios *)

(** 20-hole standard on a 210mm sheet: first hole at 12.85mm, last at
    197.15mm. *)
Example a5_20_hole_at_210 :
  exists first last,
    getHolePositions a5_20_hole 210 !! 0%nat = Some first
    /\ getHolePositions a5_20_hole 210 !! 19%nat = Some last
    /\ first == 12.85 /\ last == 197.15.
Proof. do 2 eexists. repeat split; reflexivity. Qed.

(** 2-hole ISO 838 on a 297mm sheet. *)
Example a5_2_hole_at_297 :
  Forall2 Qeq (getHolePositions a5_2_hole 297) [108.5; 188.5].
Proof. repeat (constructor; [reflexivity|]). constructor. Qed.

(** 6-hole Filofax on a 210mm sheet. *)
Example a5_6_hole_filofax_at_210 :
  Forall2 Qeq (getHolePositions a5_6_hole_filofax 210)
    [41.6; 60.6; 79.6; 130.4; 149.4; 168.4].
Proof. repeat (constructor; [reflexivity|]). constructor. Qed.

(** The padding flag narrows the content area by exactly 5mm. *)
Lemma getContentArea_padding (t : BinderType) (paperSize : PaperSize) (pageSide : PageSide) :
  exists plain padded,
    getContentArea t paperSize pageSide false = Normal plain
    /\ getContentArea t paperSize pageSide true = Normal padded
    /\ area_width padded == area_width plain - 5.
Proof.
  destruct t, paperSize, pageSide;
    (do 2 eexists; split; [reflexivity | split; reflexivity]).
Qed.

Example embedImage_png : embedImage (sample_page "page-1")
                         = embedPng "data:image/png;base64,iVBORw0KGgo=".
Proof. reflexivity. Qed.

Example includes_jpeg : includes "data:image/jpeg;base64,/9j/4AAQ" "image/png" = false.
Proof. reflexivity. Qed.

(** Single-sheet mode: one content sheet and one outline sheet per page. *)
Example generatePdf_single_sheet :
  exists content outline,
    generatePdf {| opt_pages := [sample_page "page-1"];
                   opt_binderType := A5_20_Hole;
                   opt_paperSize := A4;
                   opt_pageSide := Right;
                   opt_enablePadding := true |}
    = Normal [content; outline]
    /\ length (imagesOf content) = 1%nat
    /\ length (circlesOf outline) = 20%nat
    /\ length (rectanglesOf outline) = 1%nat.
Proof. do 2 eexists. split; [reflexivity|]. repeat split. Qed.

(** * Further properties *)

(** Evaluates the tests on the page side. *)
Ltac decide_sides :=
  repeat first
    [ progress change (bool_decide (Left = Left)) with true
    | progress change (bool_decide (Left = Right)) with false
    | progress change (bool_decide (Right = Left)) with false
    | progress change (bool_decide (Right = Right)) with true ];
  cbv iota.

(** ** Crop marks *)

Lemma linesOf_draw (page : PDFPage) (c : DrawCall) :
  linesOf (draw page c)
  = linesOf page
    ++ match c with
       | drawLine sx sy ex ey _ _ => [(sx, sy, ex, ey)]
       | _ => []
       end.
Proof.
  unfold linesOf, draw. cbn [calls]. rewrite omap_app.
  destruct c; reflexivity.
Qed.

Lemma linesOf_drawHoles (page : PDFPage) (holeX areaY holeRadius : Q) (positions : list Q) :
  linesOf (drawHoles page holeX areaY holeRadius positions) = linesOf page.
Proof.
  unfold drawHoles. revert page.
  induction positions as [|posY positions IH]; intros page; cbn [fold_left].
  - reflexivity.
  - rewrite IH, linesOf_draw. apply app_nil_r.
Qed.

Lemma Qeq_bool_shift_false (a d : Q) : 0 < d -> Qeq_bool (a + d) a = false.
Proof.
  intros Hd. destruct (Qeq_bool (a + d) a) eqn:E; [|reflexivity].
  apply Qeq_bool_iff in E. lra.
Qed.

Lemma Qeq_bool_refl (a : Q) : Qeq_bool a a = true.
Proof. apply Qeq_bool_iff. reflexivity. Qed.

(** The crop-mark loop on a rectangle of positive width and height. *)
Lemma drawCropMarks_lines (page : PDFPage) (x y w h : Q) :
  0 < w -> 0 < h ->
  exists marks,
    linesOf (drawCropMarks page x y w h) = linesOf page ++ marks
    /\ crop_marks_of x y w h marks.
Proof.
  intros Hw Hh. unfold drawCropMarks. cbn [fold_left fst snd].
  rewrite !linesOf_draw, !Qeq_bool_refl,
    (Qeq_bool_shift_false x w Hw), (Qeq_bool_shift_false y h Hh).
  rewrite <- !app_assoc. cbn [app].
  eexists. split; [reflexivity|].
  do 8 eexists. split; [reflexivity|].
  unfold horizontal_mark, vertical_mark.
  repeat split; try reflexivity; ring.
Qed.

(** X1: on a sub-area of positive width and height, [drawOutlineAt] draws
    exactly eight crop marks, two at each corner of the trim rectangle:
    each is 5mm long, lies on the line through a side of the rectangle,
    starts 3mm away from the corner and points away from the rectangle. *)
Theorem drawOutlineAt_crop_marks (t : BinderType) (pageSide : PageSide)
    (pw ph x y w h : Q) :
  0 < w -> 0 < h ->
  crop_marks_of x y w h (linesOf (drawOutlineAt (addPage pw ph) t pageSide x y w h)).
Proof.
  intros Hw Hh. unfold drawOutlineAt.
  destruct (drawCropMarks_lines
              (drawHoles
                 (draw (addPage pw ph) (drawRectangle x y w h (rgb 0 0 0) LINE_WIDTH))
                 (if bool_decide (pageSide = Left)
                  then x + mmToPoints (edgeDistance (BINDER_SPECS t))
                  else x + w - mmToPoints (edgeDistance (BINDER_SPECS t)))
                 y (mmToPoints (holeDiameter (BINDER_SPECS t)) / 2)
                 (getHolePositions (BINDER_SPECS t)
                    (height (PAPER_SIZES (spec_paperSize (BINDER_SPECS t))))))
              x y w h Hw Hh) as (marks & Hlines & Hmarks).
  rewrite Hlines, linesOf_drawHoles, linesOf_draw. exact Hmarks.
Qed.

Lemma drawOutlineAt_crop_marks_witness :
  0 < subAreaWidth /\ 0 < subAreaHeight
  /\ crop_marks_of (sheetWidth - subAreaWidth) 0 subAreaWidth subAreaHeight
       (linesOf (drawOutlineAt (addPage sheetWidth sheetHeight) A5_2_Hole Right
                   (sheetWidth - subAreaWidth) 0 subAreaWidth subAreaHeight)).
Proof.
  split; [reflexivity|]. split; [reflexivity|].
  apply drawOutlineAt_crop_marks; reflexivity.
Defined.

Lemma native_size_positive (t : BinderType) :
  0 < mmToPoints (width (PAPER_SIZES (spec_paperSize (BINDER_SPECS t))))
  /\ 0 < mmToPoints (height (PAPER_SIZES (spec_paperSize (BINDER_SPECS t)))).
Proof. destruct t; split; reflexivity. Qed.

(** X2: for every standard, paper size and side, [drawOutline] draws one
    trim rectangle, of the standard's native size, and exactly eight crop
    marks around it, two at each corner, 5mm long, 3mm away from the
    corner and pointing away from the rectangle. *)
Theorem drawOutline_crop_marks (t : BinderType) (paperSize : PaperSize)
    (pageSide : PageSide) (is2Up : bool) (position : OutlinePosition) (pw ph : Q) :
  exists x y,
    let w := mmToPoints (width (PAPER_SIZES (spec_paperSize (BINDER_SPECS t)))) in
    let h := mmToPoints (height (PAPER_SIZES (spec_paperSize (BINDER_SPECS t)))) in
    rectanglesOf (drawOutline (addPage pw ph) t paperSize pageSide is2Up position)
    = [(x, y, w, h)]
    /\ crop_marks_of x y w h
         (linesOf (drawOutline (addPage pw ph) t paperSize pageSide is2Up position)).
Proof.
  destruct (drawOutline_marks (addPage pw ph) t paperSize pageSide is2Up position)
    as [Hrect _].
  eexists. eexists. cbv zeta. split; [exact Hrect|].
  unfold drawOutline.
  destruct (outlineOrigin t paperSize is2Up position) as [areaX areaY]. cbn [fst snd].
  destruct (native_size_positive t) as [Hw Hh].
  match goal with
  | |- crop_marks_of _ _ _ _ (linesOf (drawCropMarks ?p _ _ _ _)) =>
      destruct (drawCropMarks_lines p areaX areaY _ _ Hw Hh) as (marks & Hlines & Hmarks)
  end.
  rewrite Hlines, linesOf_drawHoles, linesOf_draw. exact Hmarks.
Qed.

(** ** Hole circles and the trim rectangle *)

Lemma Array_from_elem (n : nat) (f : Q -> Q) (p : Q) :
  p ∈ Array_from n f -> exists i, (i < n)%nat /\ p = f (num i).
Proof.
  unfold Array_from. intros Hp.
  apply list_elem_of_fmap in Hp. destruct Hp as (i & -> & Hi).
  apply elem_of_seq in Hi. exists i. split; [lia | reflexivity].
Qed.

Lemma num_bounds (i n : nat) : (i <= n)%nat -> 0 <= num i /\ num i <= num n.
Proof.
  intros Hle. unfold num, Qle. cbn [Qnum Qden inject_Z]. lia.
Qed.

(** On its native sheet every hole of a catalog standard is at least a
    hole radius away from the top and from the bottom edge. *)
Lemma native_holes_inside (t : BinderType) (p : Q) :
  p ∈ getHolePositions (BINDER_SPECS t)
        (height (PAPER_SIZES (spec_paperSize (BINDER_SPECS t)))) ->
  holeDiameter (BINDER_SPECS t) / 2 <= p
  /\ p <= height (PAPER_SIZES (spec_paperSize (BINDER_SPECS t)))
          - holeDiameter (BINDER_SPECS t) / 2.
Proof.
  intros Hp.
  destruct t;
    cbn [BINDER_SPECS getHolePositions holeDiameter spec_paperSize PAPER_SIZES height
         a5_20_hole a5_2_hole a5_6_hole_filofax a5_6_hole_standard a4_4_hole] in *.
  - apply Array_from_elem in Hp. destruct Hp as (i & Hi & ->).
    destruct (num_bounds i 19) as [H0 H19]; [lia|]. change (num 19) with 19 in H19.
    unfold HOLE_DIAMETER. split; qlin.
  - apply list_elem_of_In in Hp. cbn in Hp.
    destruct Hp as [<-|[<-|[]]]; split; reflexivity || discriminate.
  - apply list_elem_of_In in Hp. cbn in Hp.
    destruct Hp as [<-|[<-|[<-|[<-|[<-|[<-|[]]]]]]]; split; reflexivity || discriminate.
  - apply list_elem_of_In in Hp. cbn in Hp.
    destruct Hp as [<-|[<-|[<-|[<-|[<-|[<-|[]]]]]]]; split; reflexivity || discriminate.
  - apply Array_from_elem in Hp. destruct Hp as (i & Hi & ->).
    destruct (num_bounds i 3) as [H0 H3]; [lia|]. change (num 3) with 3 in H3.
    unfold HOLE_DIAMETER. split; qlin.
Qed.

(** Every catalog standard keeps its holes a radius or more inside the
    side edge, and is wider than its hole margin. *)
Lemma native_edge_inside (t : BinderType) :
  holeDiameter (BINDER_SPECS t) / 2 <= edgeDistance (BINDER_SPECS t)
  /\ edgeDistance (BINDER_SPECS t) + holeDiameter (BINDER_SPECS t) / 2
     <= width (PAPER_SIZES (spec_paperSize (BINDER_SPECS t))).
Proof. destruct t; split; discriminate. Qed.

Lemma circles_within_native (t : BinderType) (pageSide : PageSide) (flip : bool) (x y : Q) :
  let spec := BINDER_SPECS t in
  let w := mmToPoints (width (PAPER_SIZES (spec_paperSize spec))) in
  let h := mmToPoints (height (PAPER_SIZES (spec_paperSize spec))) in
  Forall (circle_within (x, y, w, h))
    (map (fun posY =>
            (if flip then x + w - mmToPoints (edgeDistance spec)
             else x + mmToPoints (edgeDistance spec),
             y + mmToPoints posY,
             mmToPoints (holeDiameter spec) / 2))
       (getHolePositions spec (height (PAPER_SIZES (spec_paperSize spec))))).
Proof.
  cbv zeta. apply Forall_forall. intros c Hc.
  apply list_elem_of_fmap in Hc. destruct Hc as (posY & -> & HposY).
  destruct (native_holes_inside t posY HposY) as [Hlo Hhi].
  destruct (native_edge_inside t) as [He Hw].
  unfold circle_within, mmToPoints in *.
  destruct flip; repeat split; qlin.
Qed.

(** X3: for every catalog standard, paper size, side and placement, all
    the hole circles [drawOutline] draws lie entirely within the trim
    rectangle it draws (unlike a sheet shorter than the hole pattern, the
    native sheet holds every hole). *)
Theorem drawOutline_holes_within_trim (t : BinderType) (paperSize : PaperSize)
    (pageSide : PageSide) (is2Up : bool) (position : OutlinePosition) (pw ph : Q) :
  exists rect,
    rectanglesOf (drawOutline (addPage pw ph) t paperSize pageSide is2Up position) = [rect]
    /\ length (circlesOf (drawOutline (addPage pw ph) t paperSize pageSide is2Up position))
       = holeCount (BINDER_SPECS t)
    /\ Forall (circle_within rect)
         (circlesOf (drawOutline (addPage pw ph) t paperSize pageSide is2Up position)).
Proof.
  destruct (drawOutline_marks (addPage pw ph) t paperSize pageSide is2Up position)
    as [Hrect Hcirc].
  eexists. split; [exact Hrect|]. rewrite Hcirc. change (circlesOf (addPage pw ph)) with (@nil (Q * Q * Q)). cbn [app].
  split; [rewrite length_map; apply getHolePositions_length|].
  destruct pageSide.
  - apply (circles_within_native t Left true).
  - apply (circles_within_native t Right false).
Qed.

(** X4: on a sub-area of the standard's native size, wherever it is put,
    all the hole circles [drawOutlineAt] draws lie entirely within the
    trim rectangle of that sub-area. *)
Theorem drawOutlineAt_holes_within_trim (t : BinderType) (pageSide : PageSide)
    (pw ph x y : Q) :
  let w := mmToPoints (width (PAPER_SIZES (spec_paperSize (BINDER_SPECS t)))) in
  let h := mmToPoints (height (PAPER_SIZES (spec_paperSize (BINDER_SPECS t)))) in
  rectanglesOf (drawOutlineAt (addPage pw ph) t pageSide x y w h) = [(x, y, w, h)]
  /\ length (circlesOf (drawOutlineAt (addPage pw ph) t pageSide x y w h))
     = holeCount (BINDER_SPECS t)
  /\ Forall (circle_within (x, y, w, h))
       (circlesOf (drawOutlineAt (addPage pw ph) t pageSide x y w h)).
Proof.
  cbv zeta.
  destruct (drawOutlineAt_marks (addPage pw ph) t pageSide x y
              (mmToPoints (width (PAPER_SIZES (spec_paperSize (BINDER_SPECS t)))))
              (mmToPoints (height (PAPER_SIZES (spec_paperSize (BINDER_SPECS t))))))
    as [Hrect Hcirc].
  split; [exact Hrect|]. rewrite Hcirc. change (circlesOf (addPage pw ph)) with (@nil (Q * Q * Q)). cbn [app].
  split; [rewrite length_map; apply getHolePositions_length|].
  destruct pageSide.
  - apply (circles_within_native t Left false).
  - apply (circles_within_native t Right true).
Qed.

(** ** Content area on the sheet *)

(** X5: the content area [getContentArea] returns lies on the sheet
    exactly when the paper is at least as large as the standard's native
    sheet; for the A4 standard on A5 paper (the default branch) it does
    not fit. *)
Theorem getContentArea_on_sheet_iff (t : BinderType) (paperSize : PaperSize)
    (pageSide : PageSide) (enablePadding : bool) :
  exists area,
    getContentArea t paperSize pageSide enablePadding = Normal area
    /\ (area_on_sheet paperSize area <-> paper_holds_native t paperSize).
Proof.
  unfold area_on_sheet, paper_holds_native.
  destruct t, paperSize, pageSide, enablePadding;
    (eexists; split; [reflexivity|];
     cbn [offsetX offsetY area_width area_height PAPER_SIZES width height
          BINDER_SPECS spec_paperSize a5_20_hole a5_2_hole a5_6_hole_filofax
          a5_6_hole_standard a4_4_hole];
     split;
     [ intros (H1 & H2 & H3 & H4);
       first [ intros [? ?]; discriminate
             | exfalso; revert H2; apply Qlt_not_le; reflexivity ]
     | intros Hn;
       first [ repeat split; discriminate
             | exfalso; apply Hn; split; reflexivity ] ]).
Qed.

(** X6: whenever the paper holds the native sheet, the content area sits
    in the native sheet centred on the paper, spans its full height, and
    on the hole side stops exactly the padding (0 or 5mm) short of the
    edge of the holes: for a left page it starts at the left edge of the
    native sheet and ends padding before [right edge - edgeDistance -
    holeDiameter/2]; for a right page it starts padding after [left edge +
    edgeDistance + holeDiameter/2] and ends at the right edge. *)
Theorem getContentArea_clears_holes (t : BinderType) (paperSize : PaperSize)
    (pageSide : PageSide) (enablePadding : bool) :
  paper_holds_native t paperSize ->
  let spec := BINDER_SPECS t in
  let native := PAPER_SIZES (spec_paperSize spec) in
  let left_edge := (width (PAPER_SIZES paperSize) - width native) / 2 in
  let top_edge := (height (PAPER_SIZES paperSize) - height native) / 2 in
  let padding := if enablePadding then 5 else 0 in
  exists area,
    getContentArea t paperSize pageSide enablePadding = Normal area
    /\ offsetY area == top_edge
    /\ area_height area == height native
    /\ match pageSide with
       | Left =>
           offsetX area == left_edge
           /\ offsetX area + area_width area + padding
              == left_edge + width native - edgeDistance spec - holeDiameter spec / 2
       | Right =>
           offsetX area - padding
           == left_edge + edgeDistance spec + holeDiameter spec / 2
           /\ offsetX area + area_width area == left_edge + width native
       end.
Proof.
  unfold paper_holds_native. intros Hholds. cbv zeta.
  destruct t, paperSize, pageSide, enablePadding;
    try (exfalso; apply Hholds; split; reflexivity);
    (eexists; split; [reflexivity|]; repeat split; reflexivity).
Qed.

Lemma getContentArea_clears_holes_witness :
  paper_holds_native A5_6_Hole_Filofax A4
  /\ exists area,
      getContentArea A5_6_Hole_Filofax A4 Right true = Normal area
      /\ offsetX area == 51 /\ offsetX area + area_width area == 179
      /\ offsetY area == 43.5 /\ area_height area == 210.
Proof.
  assert (Hholds : paper_holds_native A5_6_Hole_Filofax A4).
  { intros [Hpaper _]. discriminate Hpaper. }
  split; [exact Hholds|].
  destruct (getContentArea_clears_holes A5_6_Hole_Filofax A4 Right true Hholds)
    as (area & Hret & Hy & Hh & Hx1 & Hx2).
  exists area. split; [exact Hret|].
  cbn [BINDER_SPECS a5_6_hole_filofax spec_paperSize PAPER_SIZES width height
       edgeDistance holeDiameter] in Hy, Hh, Hx1, Hx2.
  repeat split.
  - unfold HOLE_DIAMETER in Hx1. qlin.
  - rewrite Hx2. reflexivity.
  - rewrite Hy. reflexivity.
  - rewrite Hh. reflexivity.
Defined.

(** ** Single-sheet mode *)

Lemma getContentArea_returns (t : BinderType) (paperSize : PaperSize)
    (pageSide : PageSide) (enablePadding : bool) :
  exists area, getContentArea t paperSize pageSide enablePadding = Normal area.
Proof.
  destruct (getContentAreaFor_returns (BINDER_SPECS t) paperSize pageSide enablePadding)
    as (area & Hret & _).
  exists area. exact Hret.
Qed.

(** [drawContentPage] adds one image, placed from the content area. *)
Lemma drawContentPage_image (page : PDFPage) (contentPage : ContentPage)
    (t : BinderType) (paperSize : PaperSize) (pageSide : PageSide)
    (enablePadding : bool) (area : ContentArea) :
  getContentArea t paperSize pageSide enablePadding = Normal area ->
  exists content img,
    drawContentPage page contentPage t paperSize pageSide enablePadding = Normal content
    /\ page_size content = page_size page
    /\ imagesOf content = imagesOf page ++ [img]
    /\ circlesOf content = circlesOf page
    /\ placed_on_sheet paperSize area contentPage img.
Proof.
  intros Harea. unfold drawContentPage. rewrite Harea. cbn [bind].
  eexists. eexists. split; [reflexivity|]. split; [reflexivity|].
  rewrite imagesOf_draw, circlesOf_draw, app_nil_r.
  split; [reflexivity|]. split; [reflexivity|].
  unfold placed_on_sheet. repeat split; try reflexivity. ring.
Qed.

(** The loop of single-sheet mode: it keeps the sheets already in the
    document and adds, for the page at index [k], its content sheet and
    its outline sheet. *)
Lemma single_sheet_loop (t : BinderType) (paperSize : PaperSize) (pageSide : PageSide)
    (enablePadding : bool) (pw ph : Q) (area : ContentArea) (pages : list ContentPage) :
  getContentArea t paperSize pageSide enablePadding = Normal area ->
  forall pdfDoc : list PDFPage,
  exists doc,
    fold_left
      (fun (doc : completion (list PDFPage)) contentPage =>
         let* pdfDoc := doc in
         let* contentPdfPage :=
           drawContentPage (addPage pw ph) contentPage t paperSize pageSide enablePadding in
         let outlinePdfPage :=
           drawOutline (addPage pw ph) t paperSize pageSide false Single in
         Normal (pdfDoc ++ [contentPdfPage; outlinePdfPage]))
      pages (Normal pdfDoc)
    = Normal doc
    /\ length doc = (length pdfDoc + 2 * length pages)%nat
    /\ (forall j, (j < length pdfDoc)%nat -> doc !! j = pdfDoc !! j)
    /\ (forall k contentPage,
          pages !! k = Some contentPage ->
          exists content img,
            doc !! (length pdfDoc + 2 * k)%nat = Some content
            /\ doc !! (length pdfDoc + 2 * k + 1)%nat
               = Some (drawOutline (addPage pw ph) t paperSize pageSide false Single)
            /\ page_size content = (pw, ph)
            /\ imagesOf content = [img]
            /\ circlesOf content = []
            /\ placed_on_sheet paperSize area contentPage img).
Proof.
  intros Harea.
  induction pages as [|contentPage pages IH]; intros pdfDoc; cbn [fold_left].
  - exists pdfDoc. split; [reflexivity|]. split; [cbn; lia|]. split; [reflexivity|].
    intros k cp Hk. rewrite lookup_nil in Hk. discriminate.
  - destruct (drawContentPage_image (addPage pw ph) contentPage t paperSize pageSide
                enablePadding area Harea)
      as (content & img & Hdraw & Hsize & Himg & Hcirc & Hplaced).
    cbn [bind]. rewrite Hdraw. cbn [bind].
    destruct (IH (pdfDoc ++ [content;
                             drawOutline (addPage pw ph) t paperSize pageSide false Single]))
      as (doc & Hret & Hlen & Hkeep & Hnew).
    rewrite length_app in Hlen, Hkeep, Hnew. cbn [length] in Hlen, Hkeep, Hnew.
    exists doc. split; [exact Hret|]. split; [cbn [length]; lia|]. split.
    + intros j Hj. rewrite Hkeep by lia. apply lookup_app_l. exact Hj.
    + intros k cp Hk. destruct k as [|k].
      * cbn in Hk. injection Hk as <-. exists content, img.
        rewrite !Hkeep by lia.
        replace (length pdfDoc + 2 * 0)%nat with (length pdfDoc + 0)%nat by lia.
        rewrite !lookup_app_r by lia.
        replace (length pdfDoc + 0 - length pdfDoc)%nat with 0%nat by lia.
        replace (length pdfDoc + 0 + 1 - length pdfDoc)%nat with 1%nat by lia.
        repeat split; assumption || reflexivity.
      * cbn in Hk. destruct (Hnew k cp Hk) as (content' & img' & H1 & H2 & H3).
        exists content', img'.
        replace (length pdfDoc + 2 * S k)%nat with (length pdfDoc + 2 + 2 * k)%nat by lia.
        split; [exact H1|]. split; [exact H2 | exact H3].
Qed.



(** ** The two layouts compared *)




Lemma draw2UpSheets_outline_circles (firstPage : ContentPage)
    (secondPage : option ContentPage) (t : BinderType) (pageSide : PageSide)
    (enablePadding : bool) (c : Q * Q * Q) :
  c ∈ circlesOf (snd (draw2UpSheets firstPage secondPage t pageSide enablePadding)) ->
  exists cy,
    c = (match pageSide with
         | Left => sheetWidth - subAreaWidth + mmToPoints (edgeDistance (BINDER_SPECS t))
         | Right => sheetWidth - subAreaWidth + subAreaWidth
                    - mmToPoints (edgeDistance (BINDER_SPECS t))
         end, cy, mmToPoints (holeDiameter (BINDER_SPECS t)) / 2).
Proof.
  unfold draw2UpSheets. cbn [snd].
  fold sheetWidth sheetHeight subAreaWidth subAreaHeight.
  destruct secondPage as [secondPage|].
  - rewrite (proj2 (drawOutlineAt_marks _ _ _ _ _ _ _)).
    rewrite (proj2 (drawOutlineAt_marks _ _ _ _ _ _ _)).
    change (circlesOf (addPage sheetWidth sheetHeight)) with (@nil (Q * Q * Q)).
    cbn [app]. intros Hc. apply elem_of_app in Hc.
    destruct Hc as [Hc|Hc]; apply list_elem_of_fmap in Hc;
      destruct Hc as (posY & -> & _); eexists; reflexivity.
  - rewrite (proj2 (drawOutlineAt_marks _ _ _ _ _ _ _)).
    change (circlesOf (addPage sheetWidth sheetHeight)) with (@nil (Q * Q * Q)).
    cbn [app]. intros Hc. apply list_elem_of_fmap in Hc.
    destruct Hc as (posY & -> & _). eexists; reflexivity.
Qed.



(** ** Position editor *)

Lemma getContentArea_positive (t : BinderType) (paperSize : PaperSize)
    (pageSide : PageSide) (enablePadding : bool) :
  exists area,
    getContentArea t paperSize pageSide enablePadding = Normal area
    /\ 0 < area_width area /\ 0 < area_height area.
Proof.
  destruct t, paperSize, pageSide, enablePadding;
    (eexists; split; [reflexivity | split; reflexivity]).
Qed.

Lemma imgMm_positive (page : ContentPage) :
  0 < originalWidth page -> 0 < originalHeight page ->
  0 < imgWidthMm page /\ 0 < imgHeightMm page.
Proof. unfold imgWidthMm, imgHeightMm. intros Hw Hh. split; qlin. Qed.

(** The arithmetic of fitting a [iw] x [ih] image in a [W] x [H] area. *)
Lemma fit_arithmetic (W H iw ih : Q) :
  0 < W -> 0 < H -> 0 < iw -> 0 < ih ->
  let s := Qmin (W / iw) (H / ih) in
  0 < s /\ iw * s <= W /\ ih * s <= H /\ (iw * s == W \/ ih * s == H).
Proof.
  intros HW HH Hiw Hih s. subst s.
  set (sx := W / iw). set (sy := H / ih).
  assert (Ex : iw * sx == W) by (unfold sx; field; lra).
  assert (Ey : ih * sy == H) by (unfold sy; field; lra).
  assert (Hsx : 0 < sx).
  { unfold sx, Qdiv. apply Qmult_lt_0_compat; [exact HW | apply Qinv_lt_0_compat, Hiw]. }
  assert (Hsy : 0 < sy).
  { unfold sy, Qdiv. apply Qmult_lt_0_compat; [exact HH | apply Qinv_lt_0_compat, Hih]. }
  split; [apply Q.min_glb_lt; assumption|].
  split; [rewrite <- Ex; apply Qmult_le_l; [exact Hiw | apply Q.le_min_l]|].
  split; [rewrite <- Ey; apply Qmult_le_l; [exact Hih | apply Q.le_min_r]|].
  destruct (Q.min_spec sx sy) as [[_ ->]|[_ ->]]; [left | right]; assumption.
Qed.

(** The arithmetic of filling a [W] x [H] area with a [iw] x [ih] image. *)
Lemma fill_arithmetic (W H iw ih : Q) :
  0 < W -> 0 < H -> 0 < iw -> 0 < ih ->
  let s := Qmax (W / iw) (H / ih) in
  0 < s /\ W <= iw * s /\ H <= ih * s /\ (iw * s == W \/ ih * s == H).
Proof.
  intros HW HH Hiw Hih s. subst s.
  set (sx := W / iw). set (sy := H / ih).
  assert (Ex : iw * sx == W) by (unfold sx; field; lra).
  assert (Ey : ih * sy == H) by (unfold sy; field; lra).
  assert (Hsx : 0 < sx).
  { unfold sx, Qdiv. apply Qmult_lt_0_compat; [exact HW | apply Qinv_lt_0_compat, Hiw]. }
  split; [apply Qlt_le_trans with sx; [exact Hsx | apply Q.le_max_l]|].
  split; [rewrite <- Ex; apply Qmult_le_l; [exact Hiw | apply Q.le_max_l]|].
  split; [rewrite <- Ey; apply Qmult_le_l; [exact Hih | apply Q.le_max_r]|].
  destruct (Q.max_spec sx sy) as [[_ ->]|[_ ->]]; [right | left]; assumption.
Qed.

(** What "Fit to Area" computes. *)
Lemma handleFitToArea_spec (props : EditorProps) (s : EditorState) :
  0 < originalWidth (editor_page props) ->
  0 < originalHeight (editor_page props) ->
  exists area s',
    editor_contentArea props = Normal area
    /\ handleFitToArea props s = Normal s'
    /\ isDragging s' = isDragging s /\ dragStart s' = dragStart s
    /\ 0 < scale (editor_position s')
    /\ image_within_area area (editor_page props) (editor_position s')
    /\ image_centred area (editor_page props) (editor_position s')
    /\ (pos_x (editor_position s') == 0 \/ pos_y (editor_position s') == 0).
Proof.
  intros Hw Hh.
  destruct (getContentArea_positive (editor_binderType props) (editor_paperSize props)
              (editor_pageSide props) (editor_enablePadding props))
    as (area & Harea & HW & HH).
  destruct (imgMm_positive (editor_page props) Hw Hh) as [Hiw Hih].
  destruct (fit_arithmetic _ _ _ _ HW HH Hiw Hih) as (Hs & Hfw & Hfh & Htouch).
  exists area. unfold handleFitToArea, editor_contentArea. rewrite Harea. cbn [bind].
  eexists. split; [reflexivity|]. split; [reflexivity|].
  split; [reflexivity|]. split; [reflexivity|].
  cbn [setPosition editor_position scale].
  unfold image_within_area, image_centred. cbn [pos_x pos_y scale].
  set (sc := Qmin (area_width area / imgWidthMm (editor_page props))
                  (area_height area / imgHeightMm (editor_page props))) in *.
  set (sw := imgWidthMm (editor_page props) * sc) in *.
  set (sh := imgHeightMm (editor_page props) * sc) in *.
  split; [exact Hs|]. split; [repeat split; qlin|]. split; [split; qlin|].
  destruct Htouch as [E|E]; [left | right]; qlin.
Qed.





(** A page whose offsets and scale keep its image within the content
    area is drawn within the content area's rectangle on the sheet. *)
Lemma drawContentPage_within_area (pw ph : Q) (page : ContentPage) (t : BinderType)
    (paperSize : PaperSize) (pageSide : PageSide) (enablePadding : bool)
    (area : ContentArea) :
  getContentArea t paperSize pageSide enablePadding = Normal area ->
  image_within_area area page (page_position page) ->
  exists content img,
    drawContentPage (addPage pw ph) page t paperSize pageSide enablePadding
    = Normal content
    /\ imagesOf content = [img]
    /\ image_in_area_rect paperSize area img.
Proof.
  intros Harea (Hx0 & Hx1 & Hy0 & Hy1).
  destruct (drawContentPage_image (addPage pw ph) page t paperSize pageSide
              enablePadding area Harea)
    as (content & img & Hdraw & _ & Himg & _ & Hplaced).
  exists content, img. split; [exact Hdraw|]. split; [exact Himg|].
  destruct img as [image [[[x y] w] h]].
  unfold placed_on_sheet in Hplaced. destruct Hplaced as (_ & Ex & Ey & Ew & Eh).
  unfold image_in_area_rect.
  unfold imgWidthMm, imgHeightMm in Hx1, Hy1. unfold pxToMm in Ew, Eh.
  set (sw := originalWidth page / 150 * 25.4 * scale (page_position page)) in *.
  set (sh := originalHeight page / 150 * 25.4 * scale (page_position page)) in *.
  unfold mmToPoints in *. repeat split; qlin.
Qed.



(** X14: dragging.  After a mouse down at one point and a mouse move to
    another, the image has moved by the pointer's displacement divided by
    the preview scale (2 pixels per mm) and kept its scale; in a freshly
    opened editor, and after the mouse up, a mouse move changes nothing. *)
Theorem editor_drag_moves_by_displacement (down move : MouseEvent) (s : EditorState) :
  let s' := handleMouseMove move (handleMouseDown down s) in
  pos_x (editor_position s')
  == pos_x (editor_position s) + (clientX move - clientX down) / PREVIEW_SCALE
  /\ pos_y (editor_position s')
     == pos_y (editor_position s) + (clientY move - clientY down) / PREVIEW_SCALE
  /\ scale (editor_position s') = scale (editor_position s)
  /\ handleMouseMove move (handleMouseUp s') = handleMouseUp s'
  /\ (forall props, handleMouseMove move (editor_open props) = editor_open props).
Proof.
  cbv zeta. unfold handleMouseMove, handleMouseDown, handleMouseUp, PREVIEW_SCALE.
  cbn [isDragging dragStart editor_position negb fst snd pos_x pos_y scale].
  split; [qlin|]. split; [qlin|]. split; [reflexivity|]. split; reflexivity.
Qed.

(** ** Previews against the generated PDF *)

(** X15: whenever the paper holds the native sheet, the content box of a
    page thumbnail is the content area [getContentArea] returns, at the
    thumbnail scale (0.5 pixel per mm): the thumbnail shows the content
    where single-sheet generation puts it. *)
Theorem PageThumbnail_shows_content_area (t : BinderType) (paperSize : PaperSize)
    (pageSide : PageSide) (enablePadding : bool) :
  paper_holds_native t paperSize ->
  exists area,
    getContentArea t paperSize pageSide enablePadding = Normal area
    /\ box_shows_area THUMBNAIL_SCALE 0 area
         (PageThumbnail_contentBox t paperSize enablePadding pageSide).
Proof.
  unfold paper_holds_native. intros Hholds.
  destruct t, paperSize, pageSide, enablePadding;
    try (exfalso; apply Hholds; split; reflexivity);
    (eexists; split; [reflexivity|]; repeat split; reflexivity).
Qed.

Lemma PageThumbnail_shows_content_area_witness :
  paper_holds_native A5_2_Hole A4
  /\ exists area,
      getContentArea A5_2_Hole A4 Right false = Normal area
      /\ box_shows_area THUMBNAIL_SCALE 0 area
           (PageThumbnail_contentBox A5_2_Hole A4 false Right).
Proof.
  assert (Hholds : paper_holds_native A5_2_Hole A4).
  { intros [Hpaper _]. discriminate Hpaper. }
  split; [exact Hholds|].
  exact (PageThumbnail_shows_content_area A5_2_Hole A4 Right false Hholds).
Defined.

(** X16: whenever the paper holds the native sheet, the green box of the
    position editor is the content area [getContentArea] returns, at the
    preview scale (2 pixels per mm), except for a right page of an A5
    standard on A4 paper, where it is drawn 31mm further right: there the
    editor adds the centring offset to an [offsetX] that contains it
    already. *)
Theorem contentAreaPreview_against_content_area (props : EditorProps) :
  paper_holds_native (editor_binderType props) (editor_paperSize props) ->
  exists area box,
    editor_contentArea props = Normal area
    /\ contentAreaPreview props = Normal box
    /\ box_shows_area PREVIEW_SCALE
         (if bool_decide (editor_pageSide props = Right)
             && bool_decide (editor_paperSize props = A4)
             && bool_decide (spec_paperSize (BINDER_SPECS (editor_binderType props)) = A5)
          then 31 else 0)
         area box.
Proof.
  unfold paper_holds_native. destruct props as [page t paperSize pageSide enablePadding].
  cbn [editor_binderType editor_paperSize editor_pageSide]. intros Hholds.
  unfold contentAreaPreview, editor_contentArea.
  cbn [editor_binderType editor_paperSize editor_pageSide editor_enablePadding].
  destruct t, paperSize, pageSide, enablePadding;
    try (exfalso; apply Hholds; split; reflexivity);
    (eexists; eexists; split; [reflexivity|]; split; [reflexivity|];
     repeat split; reflexivity).
Qed.

Lemma contentAreaPreview_against_content_area_witness :
  let props := {| editor_page := sample_page "page-1";
                  editor_binderType := A5_20_Hole;
                  editor_paperSize := A4;
                  editor_pageSide := Right;
                  editor_enablePadding := false |} in
  paper_holds_native (editor_binderType props) (editor_paperSize props)
  /\ exists area box,
      editor_contentArea props = Normal area
      /\ contentAreaPreview props = Normal box
      /\ offsetX area == 39.5
      /\ box_left box == (39.5 + 31) * 2.
Proof.
  cbv zeta.
  assert (Hholds : paper_holds_native A5_20_Hole A4).
  { intros [Hpaper _]. discriminate Hpaper. }
  split; [exact Hholds|].
  destruct (contentAreaPreview_against_content_area
              {| editor_page := sample_page "page-1";
                 editor_binderType := A5_20_Hole;
                 editor_paperSize := A4;
                 editor_pageSide := Right;
                 editor_enablePadding := false |} Hholds)
    as (area & box & Harea & Hbox & Hleft & _).
  exists area, box. split; [exact Harea|]. split; [exact Hbox|].
  injection Harea as <-. split; [reflexivity|].
  rewrite Hleft. reflexivity.
Defined.

(** X17: a thumbnail shows one hole indicator per hole, a square of the
    hole diameter at the thumbnail scale, and no indicator overlaps the
    content box horizontally, for any standard, paper size, side and
    padding setting. *)
Theorem HoleIndicators_apart_from_content (t : BinderType) (paperSize : PaperSize)
    (pageSide : PageSide) (enablePadding : bool) :
  length (HoleIndicators t paperSize pageSide) = holeCount (BINDER_SPECS t)
  /\ Forall (fun hole =>
               box_width hole == holeDiameter (BINDER_SPECS t) * THUMBNAIL_SCALE
               /\ box_height hole == box_width hole
               /\ boxes_apart hole
                    (PageThumbnail_contentBox t paperSize enablePadding pageSide))
       (HoleIndicators t paperSize pageSide).
Proof.
  unfold HoleIndicators. split.
  - rewrite length_map. apply getHolePositions_length.
  - apply Forall_forall. intros hole Hhole.
    apply list_elem_of_fmap in Hhole. destruct Hhole as (posY & -> & _).
    cbn [box_width box_height box_left].
    split; [reflexivity|]. split; [reflexivity|].
    unfold boxes_apart, PageThumbnail_contentBox. cbn [box_width box_left].
    destruct t, paperSize, pageSide, enablePadding; decide_sides;
      first [left; discriminate | right; discriminate].
Qed.

(** ** Upload ([processFiles]) *)

Lemma pretty_N_go_dashless (x : N) :
  forall s, dashless s -> dashless (pretty_N_go x s).
Proof.
  induction (N.lt_wf_0 x) as [x _ IH]. intros s Hs.
  destruct (decide (x = 0%N)) as [->|Hx].
  - rewrite pretty_N_go_0. exact Hs.
  - rewrite pretty_N_go_step by lia. apply IH.
    + apply N.div_lt; lia.
    + split; [|exact Hs]. unfold pretty_N_char.
      repeat case_match; discriminate.
Qed.

Lemma pretty_nat_dashless (n : nat) : dashless (pretty n).
Proof.
  unfold pretty, pretty_nat, pretty, pretty_N.
  destruct (decide (N.of_nat n = 0%N)).
  - split; [discriminate | exact I].
  - apply pretty_N_go_dashless. exact I.
Qed.

(** Two strings without a dash that are followed by a dash in the same
    string are the same. *)
Lemma dashless_prefix_inj (u u' x x' : string) :
  dashless u -> dashless u' ->
  u +:+ String "-" x = u' +:+ String "-" x' -> u = u'.
Proof.
  revert u'. induction u as [|c u IH]; intros [|c' u'] Hu Hu' Heq; cbn in *.
  - reflexivity.
  - injection Heq as Hc _. destruct Hu' as [Hc' _]. congruence.
  - injection Heq as Hc _. destruct Hu as [Hc' _]. congruence.
  - injection Heq as -> Heq. destruct Hu as [_ Hu]. destruct Hu' as [_ Hu'].
    f_equal. exact (IH u' Hu Hu' Heq).
Qed.

Lemma page_id_at_inj (env : Env) (k k' : nat) :
  page_id_at env k = page_id_at env k' -> k = k'.
Proof.
  unfold page_id_at. intros Heq. cbn in Heq.
  injection Heq as Heq.
  apply dashless_prefix_inj in Heq; [|apply pretty_nat_dashless..].
  exact (pretty_nat_inj _ _ Heq).
Qed.

(** What a run of a loop over files or pages adds: [new] pages, the
    page at position [k] of which is on the side of index
    [startIndex + k] and has the id of counter value [counter + k + 1]. *)
Definition run_adds (env : Env) (startIndex counter : nat) (new : list SidedPage) : Prop :=
  forall k page,
    new !! k = Some page ->
    sided_pageSide page = PerPageSide.getAlternatingPageSide (startIndex + k)
    /\ page_id (sided_page page) = page_id_at env (counter + k + 1).

Lemma run_adds_app (env : Env) (startIndex counter : nat) (a b : list SidedPage) :
  run_adds env startIndex counter a ->
  run_adds env (startIndex + length a) (counter + length a) b ->
  run_adds env startIndex counter (a ++ b).
Proof.
  intros Ha Hb k page Hk.
  apply lookup_app_Some in Hk. destruct Hk as [Hk|[Hge Hk]].
  - exact (Ha k page Hk).
  - destruct (Hb _ page Hk) as [Hside Hid].
    replace (startIndex + length a + (k - length a))%nat with (startIndex + k)%nat
      in Hside by lia.
    replace (counter + length a + (k - length a) + 1)%nat with (counter + k + 1)%nat
      in Hid by lia.
    split; assumption.
Qed.

Lemma processPdf_loop_spec (env : Env) (renders : list (completion RenderedPage)) :
  forall (i startIndex : nat) (pages : list SidedPage) (counter : nat)
         (out : list SidedPage) (counter' : nat),
    (1 <= i)%nat ->
    PerPageSide.processPdf_loop env renders i startIndex pages counter
    = (Normal out, counter') ->
    exists new,
      out = pages ++ new
      /\ length new = length renders
      /\ counter' = (counter + length new)%nat
      /\ run_adds env (startIndex + i - 1) counter new.
Proof.
  induction renders as [|[rendered|e] renders IH];
    intros i startIndex pages counter out counter' Hi Hrun;
    cbn [PerPageSide.processPdf_loop] in Hrun.
  - injection Hrun as <- <-. exists []. rewrite app_nil_r.
    split; [reflexivity|]. split; [reflexivity|]. split; [cbn; lia|].
    intros k page Hk. rewrite lookup_nil in Hk. discriminate.
  - cbn [PerPageSide.generatePageId] in Hrun.
    apply IH in Hrun; [|lia]. destruct Hrun as (new & -> & Hlen & -> & Hnew).
    eexists (_ :: new). rewrite <- app_assoc. split; [reflexivity|].
    split; [cbn [length]; lia|]. split; [cbn [length]; lia|].
    intros k page Hk. destruct k as [|k].
    + cbn in Hk. injection Hk as <-. cbn [sided_pageSide sided_page page_id].
      split; [f_equal; lia|]. unfold page_id_at.
      replace (counter + 0 + 1)%nat with (S counter) by lia. reflexivity.
    + cbn in Hk. destruct (Hnew k page Hk) as [Hside Hid].
      split.
      * rewrite Hside. f_equal. lia.
      * rewrite Hid. f_equal. lia.
  - discriminate Hrun.
Qed.

Lemma processFiles_loop_spec (env : Env) (files : list File) :
  forall (allPages : list SidedPage) (currentIndex counter : nat)
         (out : list SidedPage) (counter' : nat),
    PerPageSide.processFiles_loop env files allPages currentIndex counter
    = (Normal out, counter') ->
    exists new,
      out = allPages ++ new
      /\ counter' = (counter + length new)%nat
      /\ run_adds env currentIndex counter new.
Proof.
  induction files as [|file files IH];
    intros allPages currentIndex counter out counter' Hrun;
    cbn [PerPageSide.processFiles_loop] in Hrun.
  - injection Hrun as <- <-. exists []. rewrite app_nil_r.
    split; [reflexivity|]. split; [cbn; lia|].
    intros k page Hk. rewrite lookup_nil in Hk. discriminate.
  - destruct (String.eqb (toLowerCase env (file_type file)) "application/pdf").
    + unfold PerPageSide.processPdf in Hrun.
      destruct (pdfDocument file) as [renders|e]; [|discriminate Hrun].
      destruct (PerPageSide.processPdf_loop env renders 1 currentIndex [] counter)
        as [[pdfPages|e] counter1] eqn:Hpdf; [|discriminate Hrun].
      apply processPdf_loop_spec in Hpdf; [|lia].
      destruct Hpdf as (new1 & Hout1 & _ & -> & Hnew1). cbn in Hout1. subst pdfPages.
      replace (currentIndex + 1 - 1)%nat with currentIndex in Hnew1 by lia.
      apply IH in Hrun. destruct Hrun as (new2 & -> & -> & Hnew2).
      exists (new1 ++ new2). rewrite <- app_assoc. split; [reflexivity|].
      split; [rewrite length_app; lia|].
      apply run_adds_app; assumption.
    + destruct (String.prefix "image/" (toLowerCase env (file_type file))).
      * unfold PerPageSide.processImage in Hrun.
        destruct (readAsDataURL file) as [dataUrl|]; [|discriminate Hrun].
        destruct (decodedImage file) as [[img_width img_height]|]; [|discriminate Hrun].
        cbn [PerPageSide.generatePageId] in Hrun.
        apply IH in Hrun. destruct Hrun as (new2 & -> & -> & Hnew2).
        eexists (_ :: new2). rewrite <- app_assoc. split; [reflexivity|].
        split; [cbn [length]; lia|].
        apply (run_adds_app env currentIndex counter [_] new2).
        -- intros k page Hk. destruct k as [|k]; [|cbn in Hk; discriminate Hk].
           cbn in Hk. injection Hk as <-. cbn [sided_pageSide sided_page page_id].
           split; [f_equal; lia|]. unfold page_id_at.
           replace (counter + 0 + 1)%nat with (S counter) by lia. reflexivity.
        -- cbn [length]. replace (counter + 1)%nat with (S counter) by lia. exact Hnew2.
      * apply IH in Hrun. exact Hrun.
Qed.

Lemma processFiles_spec (env : Env) (files : list File) (startIndex counter : nat)
    (pages : list SidedPage) (counter' : nat) :
  PerPageSide.processFiles env files startIndex counter = (Normal pages, counter') ->
  counter' = (counter + length pages)%nat /\ run_adds env startIndex counter pages.
Proof.
  unfold PerPageSide.processFiles. intros Hrun.
  apply processFiles_loop_spec in Hrun. destruct Hrun as (new & Hout & Hc & Hnew).
  cbn in Hout. subst new. split; assumption.
Qed.

(** X18: when [processFiles] succeeds, the pages it returns alternate:
    the page at position [k] is a left page if [startIndex + k] is even
    and a right page otherwise, across the files and whatever files were
    skipped. *)
Theorem processFiles_alternates (env : Env) (files : list File) (startIndex counter : nat)
    (pages : list SidedPage) (counter' : nat) :
  PerPageSide.processFiles env files startIndex counter = (Normal pages, counter') ->
  alternates_from startIndex pages.
Proof.
  intros Hrun. destruct (processFiles_spec _ _ _ _ _ _ Hrun) as [_ Hnew].
  intros k page Hk. exact (proj1 (Hnew k page Hk)).
Qed.

Lemma processFiles_alternates_witness :
  exists pages counter',
    PerPageSide.processFiles sample_env
      [sample_image_file; sample_text_file; sample_pdf_file] 1 7
    = (Normal pages, counter')
    /\ map sided_pageSide pages = [Right; Left; Right]
    /\ alternates_from 1 pages.
Proof.
  eexists. eexists. split; [vm_compute; reflexivity|]. split; [reflexivity|].
  eapply (processFiles_alternates sample_env
            [sample_image_file; sample_text_file; sample_pdf_file] 1 7).
  vm_compute. reflexivity.
Defined.

(** X19: when [processFiles] succeeds, the counter of page ids has
    advanced by the number of pages returned, the page at position [k]
    has the id made for counter value [counter + k + 1], and the ids of
    the returned pages are pairwise distinct, whatever the clock shows. *)
Theorem processFiles_ids_distinct (env : Env) (files : list File) (startIndex counter : nat)
    (pages : list SidedPage) (counter' : nat) :
  PerPageSide.processFiles env files startIndex counter = (Normal pages, counter') ->
  counter' = (counter + length pages)%nat
  /\ (forall k page,
        pages !! k = Some page ->
        page_id (sided_page page) = page_id_at env (counter + k + 1))
  /\ NoDup (map (fun page => page_id (sided_page page)) pages).
Proof.
  intros Hrun. destruct (processFiles_spec _ _ _ _ _ _ Hrun) as [Hc Hnew].
  split; [exact Hc|]. split.
  - intros k page Hk. exact (proj2 (Hnew k page Hk)).
  - apply NoDup_alt. intros i j id Hi Hj.
    rewrite list_lookup_fmap in Hi, Hj.
    destruct (pages !! i) as [pi|] eqn:Hpi; [|discriminate Hi].
    destruct (pages !! j) as [pj|] eqn:Hpj; [|discriminate Hj].
    cbn in Hi, Hj. injection Hi as Hi. injection Hj as Hj.
    rewrite (proj2 (Hnew i pi Hpi)) in Hi. rewrite (proj2 (Hnew j pj Hpj)) in Hj.
    rewrite <- Hj in Hi. apply page_id_at_inj in Hi. lia.
Qed.

Lemma processFiles_ids_distinct_witness :
  exists pages counter',
    PerPageSide.processFiles sample_env [sample_pdf_file; sample_image_file] 0 0
    = (Normal pages, counter')
    /\ counter' = 3%nat
    /\ map (fun page => page_id (sided_page page)) pages
       = ["page-1-1701"; "page-2-1702"; "page-3-1703"]
    /\ NoDup (map (fun page => page_id (sided_page page)) pages).
Proof.
  eexists. eexists. split; [vm_compute; reflexivity|]. split; [reflexivity|].
  split; [vm_compute; reflexivity|].
  eapply (processFiles_ids_distinct sample_env [sample_pdf_file; sample_image_file] 0 0).
  vm_compute. reflexivity.
Defined.

Lemma processPdf_loop_succeeds_iff (env : Env) (renders : list (completion RenderedPage)) :
  forall (i startIndex : nat) (pages : list SidedPage) (counter : nat),
    (exists out counter',
        PerPageSide.processPdf_loop env renders i startIndex pages counter
        = (Normal out, counter'))
    <-> forallb (fun r => match r with Normal _ => true | Throw _ => false end) renders
        = true.
Proof.
  induction renders as [|[rendered|e] renders IH]; intros i startIndex pages counter;
    cbn [PerPageSide.processPdf_loop forallb].
  - split; [reflexivity | intros _; eexists; eexists; reflexivity].
  - cbn [PerPageSide.generatePageId andb]. apply IH.
  - cbn [andb]. split; [intros (out & c & H); discriminate H | discriminate].
Qed.

Lemma processFiles_loop_succeeds_iff (env : Env) (files : list File) :
  forall (allPages : list SidedPage) (currentIndex counter : nat),
    (exists out counter',
        PerPageSide.processFiles_loop env files allPages currentIndex counter
        = (Normal out, counter'))
    <-> forallb (decodes env) files = true.
Proof.
  induction files as [|file files IH]; intros allPages currentIndex counter;
    cbn [PerPageSide.processFiles_loop forallb].
  - split; [reflexivity | intros _; eexists; eexists; reflexivity].
  - unfold decodes at 1.
    destruct (String.eqb (toLowerCase env (file_type file)) "application/pdf").
    + unfold PerPageSide.processPdf.
      destruct (pdfDocument file) as [renders|e].
      * destruct (PerPageSide.processPdf_loop env renders 1 currentIndex [] counter)
          as [[pdfPages|e] counter1] eqn:Hpdf.
        -- assert (Hall : forallb (fun r => match r with
                                             | Normal _ => true
                                             | Throw _ => false
                                             end) renders = true).
           { apply (processPdf_loop_succeeds_iff env renders 1 currentIndex [] counter).
             eexists; eexists; exact Hpdf. }
           rewrite Hall. cbn [andb]. apply IH.
        -- assert (Hall : forallb (fun r => match r with
                                             | Normal _ => true
                                             | Throw _ => false
                                             end) renders = false).
           { destruct (forallb _ renders) eqn:E; [|reflexivity].
             apply (processPdf_loop_succeeds_iff env renders 1 currentIndex [] counter) in E.
             destruct E as (out & c & E). rewrite Hpdf in E. discriminate E. }
           rewrite Hall. cbn [andb].
           split; [intros (out & c & H); discriminate H | discriminate].
      * cbn [andb]. split; [intros (out & c & H); discriminate H | discriminate].
    + destruct (String.prefix "image/" (toLowerCase env (file_type file))).
      * unfold PerPageSide.processImage.
        destruct (readAsDataURL file) as [dataUrl|];
          [|cbn [andb]; split; [intros (out & c & H); discriminate H | discriminate]].
        destruct (decodedImage file) as [[img_width img_height]|];
          [|cbn [andb]; split; [intros (out & c & H); discriminate H | discriminate]].
        cbn [PerPageSide.generatePageId andb]. apply IH.
      * cbn [andb]. apply IH.
Qed.

(** X20: [processFiles] is all or nothing: it returns pages exactly when
    every PDF among the files opens with all its pages rendered and every
    image is read and loaded; one file that fails makes the whole call
    fail, and files that are neither PDF nor image never make it fail. *)
Theorem processFiles_succeeds_iff (env : Env) (files : list File) (startIndex counter : nat) :
  (exists pages counter',
      PerPageSide.processFiles env files startIndex counter = (Normal pages, counter'))
  <-> forallb (decodes env) files = true.
Proof. apply processFiles_loop_succeeds_iff. Qed.

Lemma processFiles_loop_skips (env : Env) (files : list File) :
  forall (allPages : list SidedPage) (currentIndex counter : nat),
    PerPageSide.processFiles_loop env files allPages currentIndex counter
    = PerPageSide.processFiles_loop env (List.filter (supported env) files)
        allPages currentIndex counter.
Proof.
  induction files as [|file files IH]; intros allPages currentIndex counter;
    [reflexivity|].
  cbn [List.filter]. unfold supported at 1.
  destruct (String.eqb (toLowerCase env (file_type file)) "application/pdf") eqn:Epdf.
  - cbn [orb PerPageSide.processFiles_loop]. rewrite Epdf.
    destruct (PerPageSide.processPdf env file currentIndex counter) as [[pdfPages|e] c1];
      [apply IH | reflexivity].
  - destruct (String.prefix "image/" (toLowerCase env (file_type file))) eqn:Eimg.
    + cbn [orb PerPageSide.processFiles_loop]. rewrite Epdf, Eimg.
      destruct (PerPageSide.processImage env file
                  (PerPageSide.getAlternatingPageSide currentIndex) counter)
        as [[imagePage|e] c1]; [apply IH | reflexivity].
    + cbn [orb PerPageSide.processFiles_loop]. rewrite Epdf, Eimg. apply IH.
Qed.

(** X21: files that are neither a PDF nor an image are ignored by
    [processFiles]: they add no page and use up no index and no id, so
    the result is that of the call without them. *)
Theorem processFiles_skips_unsupported (env : Env) (files : list File)
    (startIndex counter : nat) :
  PerPageSide.processFiles env files startIndex counter
  = PerPageSide.processFiles env (List.filter (supported env) files) startIndex counter.
Proof. apply processFiles_loop_skips. Qed.

(** ** The application state ([App]) *)


(** ** The application state ([App]) *)

Lemma Array_filter_above {A : Type} (l : list A) (index i : nat) :
  (index < i)%nat ->
  PerPageSide.Array_filter (fun _ j => negb (j =? index)%nat) l i = l.
Proof.
  revert i. induction l as [|x l IH]; intros i Hlt; cbn [PerPageSide.Array_filter].
  - reflexivity.
  - destruct (Nat.eqb_spec i index) as [->|_]; [lia|].
    cbn [negb]. f_equal. apply IH. lia.
Qed.

Lemma Array_filter_delete {A : Type} (l : list A) (index i : nat) :
  (i <= index)%nat ->
  PerPageSide.Array_filter (fun _ j => negb (j =? index)%nat) l i = delete (index - i)%nat l.
Proof.
  revert i. induction l as [|x l IH]; intros i Hle; cbn [PerPageSide.Array_filter].
  - reflexivity.
  - destruct (Nat.eqb_spec i index) as [->|Hne]; cbn [negb].
    + rewrite Nat.sub_diag. cbn. apply Array_filter_above. lia.
    + rewrite IH by lia.
      replace (index - i)%nat with (S (index - S i)) by lia. reflexivity.
Qed.

(** X22: removing the page at [index] keeps the pages before it where
    they are, moves each later page one position down, closes the editor
    and clears the selection; when there is no page at [index] the list of
    pages is left as it is. *)
Theorem handleRemovePage_removes_one (index : nat) (s : PerPageSide.AppState) :
  let s' := PerPageSide.handleRemovePage index s in
  let pages := PerPageSide.app_pages s in
  let pages' := PerPageSide.app_pages s' in
  (forall k, (k < index)%nat -> pages' !! k = pages !! k)
  /\ (forall k, (index <= k)%nat -> pages' !! k = pages !! S k)
  /\ length pages' = (if decide (index < length pages)%nat
                      then length pages - 1 else length pages)%nat
  /\ PerPageSide.selectedPageIndex s' = None
  /\ PerPageSide.editingPageIndex s' = None
  /\ PerPageSide.editingPage s' = None.
Proof.
  cbv zeta. unfold PerPageSide.handleRemovePage, PerPageSide.editingPage.
  cbn [PerPageSide.setIndices PerPageSide.setPages PerPageSide.app_pages
       PerPageSide.selectedPageIndex PerPageSide.editingPageIndex].
  rewrite Array_filter_delete by lia. rewrite Nat.sub_0_r.
  split; [intros k Hk; apply list_lookup_delete_lt; exact Hk|].
  split; [intros k Hk; apply list_lookup_delete_ge; exact Hk|].
  split; [|repeat split].
  destruct (decide (index < length (PerPageSide.app_pages s))%nat) as [Hlt|Hge].
  - rewrite length_delete; [reflexivity|]. apply lookup_lt_is_Some. exact Hlt.
  - rewrite delete_take_drop, take_ge, drop_ge, app_nil_r by lia. reflexivity.
Qed.

(** X23: a position change reaches the page being edited and no other:
    with no page being edited the state is left as it is; otherwise the
    page at the edited index gets the new position and keeps its other
    fields and its side, every other page is unchanged, and so is the
    number of pages.  A side change does the same with the side. *)
Theorem page_edits_touch_one_page (position : Position) (index : nat)
    (pageSide : PageSide) (s : PerPageSide.AppState) :
  match PerPageSide.editingPageIndex s with
  | None => PerPageSide.handlePositionChange position s = s
  | Some i =>
      let pages' := PerPageSide.app_pages (PerPageSide.handlePositionChange position s) in
      pages' !! i
      = (fun page => PerPageSide.page_with_position page position)
          <$> PerPageSide.app_pages s !! i
      /\ (forall k, k <> i -> pages' !! k = PerPageSide.app_pages s !! k)
      /\ length pages' = length (PerPageSide.app_pages s)
  end
  /\ (let pages' :=
        PerPageSide.app_pages (PerPageSide.handlePageSideChange index pageSide s) in
      pages' !! index
      = (fun page => PerPageSide.page_with_pageSide page pageSide)
          <$> PerPageSide.app_pages s !! index
      /\ (forall k, k <> index -> pages' !! k = PerPageSide.app_pages s !! k)
      /\ length pages' = length (PerPageSide.app_pages s)).
Proof.
  split.
  - unfold PerPageSide.handlePositionChange.
    destruct (PerPageSide.editingPageIndex s) as [i|]; [|reflexivity].
    cbn [PerPageSide.setPages PerPageSide.app_pages]. split; [|split].
    + rewrite list_lookup_imap. rewrite Nat.eqb_refl. reflexivity.
    + intros k Hk. rewrite list_lookup_imap.
      destruct (Nat.eqb_spec k i) as [->|_]; [contradiction|].
      destruct (PerPageSide.app_pages s !! k); reflexivity.
    + apply length_imap.
  - unfold PerPageSide.handlePageSideChange.
    cbn [PerPageSide.setPages PerPageSide.app_pages]. split; [|split].
    + rewrite list_lookup_imap. rewrite Nat.eqb_refl. reflexivity.
    + intros k Hk. rewrite list_lookup_imap.
      destruct (Nat.eqb_spec k index) as [->|_]; [contradiction|].
      destruct (PerPageSide.app_pages s !! k); reflexivity.
    + apply length_imap.
Qed.

(** X24: an upload keeps the pages already there, in place, and adds the
    new ones behind them; if the pages alternated left, right, left, ...
    from the first one before the upload, they still do after it, whether
    the upload succeeds or fails; the processing flag is down at the end. *)
Theorem handleFilesSelected_keeps_alternation (env : Env) (files : list File)
    (s : PerPageSide.AppState) (counter : nat) :
  alternates_from 0 (PerPageSide.app_pages s) ->
  let s' := fst (PerPageSide.handleFilesSelected env files s counter) in
  alternates_from 0 (PerPageSide.app_pages s')
  /\ PerPageSide.app_pages s `prefix_of` PerPageSide.app_pages s'
  /\ PerPageSide.isProcessing s' = false.
Proof.
  intros Halt. cbv zeta. unfold PerPageSide.handleFilesSelected.
  destruct (PerPageSide.processFiles env files (length (PerPageSide.app_pages s)) counter)
    as [[newPages|e] counter'] eqn:Hrun;
    cbn [fst PerPageSide.setIsProcessing PerPageSide.setPages PerPageSide.app_pages
         PerPageSide.isProcessing].
  - split; [|split; [apply prefix_app_r; reflexivity | reflexivity]].
    destruct (processFiles_spec _ _ _ _ _ _ Hrun) as [_ Hnew].
    intros k page Hk. apply lookup_app_Some in Hk. destruct Hk as [Hk|[Hge Hk]].
    + exact (Halt k page Hk).
    + destruct (Hnew _ page Hk) as [Hside _]. rewrite Hside. f_equal. lia.
  - split; [exact Halt|]. split; reflexivity.
Qed.

Lemma handleFilesSelected_keeps_alternation_witness :
  alternates_from 0 (PerPageSide.app_pages PerPageSide.App_initial)
  /\ map sided_pageSide
       (PerPageSide.app_pages
          (fst (PerPageSide.handleFilesSelected sample_env
                  [sample_pdf_file; sample_image_file] PerPageSide.App_initial 0)))
     = [Left; Right; Left]
  /\ alternates_from 0
       (PerPageSide.app_pages
          (fst (PerPageSide.handleFilesSelected sample_env
                  [sample_pdf_file; sample_image_file] PerPageSide.App_initial 0))).
Proof.
  assert (Hinit : alternates_from 0 (PerPageSide.app_pages PerPageSide.App_initial)).
  { intros k page Hk. cbn in Hk. discriminate Hk. }
  split; [exact Hinit|]. split; [vm_compute; reflexivity|].
  exact (proj1 (handleFilesSelected_keeps_alternation sample_env
                  [sample_pdf_file; sample_image_file] PerPageSide.App_initial 0 Hinit)).
Defined.

(** ** Generation with a side per page *)

(** The loop of the second [generatePdf]. *)
Lemma per_page_loop (t : BinderType) (paperSize : PaperSize) (enablePadding : bool)
    (pw ph : Q) (pages : list SidedPage) :
  forall pdfDoc : list PDFPage,
  exists doc,
    fold_left
      (fun (doc : completion (list PDFPage)) contentPage =>
         let* pdfDoc := doc in
         let pageSide := sided_pageSide contentPage in
         let* contentPdfPage :=
           drawContentPage (addPage pw ph) (sided_page contentPage)
             t paperSize pageSide enablePadding in
         let outlinePdfPage :=
           drawOutline (addPage pw ph) t paperSize pageSide false Single in
         Normal (pdfDoc ++ [contentPdfPage; outlinePdfPage]))
      pages (Normal pdfDoc)
    = Normal doc
    /\ length doc = (length pdfDoc + 2 * length pages)%nat
    /\ (forall j, (j < length pdfDoc)%nat -> doc !! j = pdfDoc !! j)
    /\ (forall k page,
          pages !! k = Some page ->
          exists area content img,
            getContentArea t paperSize (sided_pageSide page) enablePadding = Normal area
            /\ doc !! (length pdfDoc + 2 * k)%nat = Some content
            /\ doc !! (length pdfDoc + 2 * k + 1)%nat
               = Some (drawOutline (addPage pw ph) t paperSize (sided_pageSide page)
                         false Single)
            /\ imagesOf content = [img]
            /\ placed_on_sheet paperSize area (sided_page page) img).
Proof.
  induction pages as [|contentPage pages IH]; intros pdfDoc; cbn [fold_left].
  - exists pdfDoc. split; [reflexivity|]. split; [cbn; lia|]. split; [reflexivity|].
    intros k page Hk. rewrite lookup_nil in Hk. discriminate.
  - destruct (getContentArea_returns t paperSize (sided_pageSide contentPage) enablePadding)
      as [area Harea].
    destruct (drawContentPage_image (addPage pw ph) (sided_page contentPage) t paperSize
                (sided_pageSide contentPage) enablePadding area Harea)
      as (content & img & Hdraw & _ & Himg & _ & Hplaced).
    cbn [bind]. rewrite Hdraw. cbn [bind].
    destruct (IH (pdfDoc ++ [content;
                             drawOutline (addPage pw ph) t paperSize
                               (sided_pageSide contentPage) false Single]))
      as (doc & Hret & Hlen & Hkeep & Hnew).
    rewrite length_app in Hlen, Hkeep, Hnew. cbn [length] in Hlen, Hkeep, Hnew.
    exists doc. split; [exact Hret|]. split; [cbn [length]; lia|]. split.
    + intros j Hj. rewrite Hkeep by lia. apply lookup_app_l. exact Hj.
    + intros k page Hk. destruct k as [|k].
      * cbn in Hk. injection Hk as <-. exists area, content, img.
        rewrite !Hkeep by lia.
        replace (length pdfDoc + 2 * 0)%nat with (length pdfDoc + 0)%nat by lia.
        rewrite !lookup_app_r by lia.
        replace (length pdfDoc + 0 - length pdfDoc)%nat with 0%nat by lia.
        replace (length pdfDoc + 0 + 1 - length pdfDoc)%nat with 1%nat by lia.
        repeat split; assumption || reflexivity.
      * cbn in Hk. destruct (Hnew k page Hk) as (area' & content' & img' & H0 & H1 & H2 & H3).
        exists area', content', img'.
        replace (length pdfDoc + 2 * S k)%nat with (length pdfDoc + 2 + 2 * k)%nat by lia.
        split; [exact H0|]. split; [exact H1|]. split; [exact H2 | exact H3].
Qed.

Lemma PerPageSide_generatePdf_spec (options : PerPageSide.GeneratePdfOptions) :
  let t := PerPageSide.binderType options in
  let paperSize := PerPageSide.paperSize options in
  let enablePadding := PerPageSide.enablePadding options in
  let pw := mmToPoints (width (PAPER_SIZES paperSize)) in
  let ph := mmToPoints (height (PAPER_SIZES paperSize)) in
  exists doc,
    PerPageSide.generatePdf options = Normal doc
    /\ length doc = (2 * length (PerPageSide.pages options))%nat
    /\ (forall k page,
          PerPageSide.pages options !! k = Some page ->
          exists area content img,
            getContentArea t paperSize (sided_pageSide page) enablePadding = Normal area
            /\ doc !! (2 * k)%nat = Some content
            /\ doc !! (2 * k + 1)%nat
               = Some (drawOutline (addPage pw ph) t paperSize (sided_pageSide page)
                         false Single)
            /\ imagesOf content = [img]
            /\ placed_on_sheet paperSize area (sided_page page) img).
Proof.
  cbv zeta. unfold PerPageSide.generatePdf.
  destruct (per_page_loop (PerPageSide.binderType options) (PerPageSide.paperSize options)
              (PerPageSide.enablePadding options)
              (mmToPoints (width (PAPER_SIZES (PerPageSide.paperSize options))))
              (mmToPoints (height (PAPER_SIZES (PerPageSide.paperSize options))))
              (PerPageSide.pages options) [])
    as (doc & Hret & Hlen & _ & Hnew).
  exists doc. split; [exact Hret|]. split; [exact Hlen | exact Hnew].
Qed.




(** X27: switching the padding on narrows the content area by exactly
    5mm and, for a right page, moves it 5mm further from the holes; its
    height and vertical offset, and the horizontal offset of a left page,
    stay the same. *)
Theorem getContentArea_padding_5mm (t : BinderType) (paperSize : PaperSize)
    (pageSide : PageSide) :
  exists plain padded,
    getContentArea t paperSize pageSide false = Normal plain
    /\ getContentArea t paperSize pageSide true = Normal padded
    /\ area_width padded == area_width plain - 5
    /\ area_height padded == area_height plain
    /\ offsetY padded == offsetY plain
    /\ offsetX padded == offsetX plain + match pageSide with Left => 0 | Right => 5 end.
Proof.
  destruct t, paperSize, pageSide;
    (do 2 eexists; split; [reflexivity|]; split; [reflexivity|];
     repeat split; reflexivity).
Qed.
